(** * Stratum v2 Template Provider: template cache, watchers, supervisor

    A shallow embedding of [src/sv2/template_provider.cpp] and the
    properties its specification states about it.

    Conventions of the embedding:
    - [uint256] hashes and the [uint64_t] template ids are naturals
      ([N]); the pre-increment of the id counter wraps at [2^64];
    - [std::chrono::seconds] readings of the wall clock are integers ([Z],
      the representation is signed);
    - [std::map] is a [gmap], [std::vector] and [std::deque] are lists;
    - every scope that holds [m_tp_mutex] or the transport's
      [m_clients_mutex] is one atomic action on the shared [World];
    - calls to the collaborators (the [Mining] interface, the clock, the
      interrupt flag, sleeping, thread creation) are events answered by
      an [Oracle];
    - a [BlockTemplate] is a value: its accessors ([getBlockHeader],
      [getBlock], [getCoinbaseTx], ...) are projections and leave no
      trace; of its methods only [waitNext] is an event;
    - a [while] loop is unrolled by a fuel argument and reports
      [OutOfFuel] when the fuel ends before the loop does. *)

From Stdlib Require Import ZArith NArith Lia Bool String.
From stdpp Require Import base option list gmap fin_maps sorting.

Set Implicit Arguments.
Unset Strict Implicit.
Set Default Proof Using "Type".

Local Open Scope Z_scope.

(** ** Data model *)

Definition uint256 := N.
Definition uint256_ZERO : uint256 := 0%N.

(** Modelled from the spec: [CBlockHeader] is declared outside
    [template_provider.cpp]; of its fields only [hashPrevBlock] is read
    there, the remaining ones are kept as one value so that two headers on
    the same parent can differ. *)
Record CBlockHeader := {
  hashPrevBlock : uint256;
  header_rest : N
}.

(** Modelled from the spec: a script witness is a stack of byte vectors. *)
Record CScriptWitness := { stack : list (list Byte.byte) }.

Record CTxIn := { scriptWitness : CScriptWitness }.

(** Of a transaction only the inputs are read; [tx_tag] stands for the
    rest of it. *)
Record CTransaction := {
  tx_tag : N;
  vin : list CTxIn
}.

(** [CBlock] derives from [CBlockHeader] and adds the transactions. *)
Record CBlock := {
  block_header : CBlockHeader;
  vtx : list CTransaction
}.

(** Modelled from the spec: the accessors of the [BlockTemplate]
    interface; [waitNext] blocks and is an event (see [Event]). *)
Record BlockTemplate := {
  getBlockHeader : CBlockHeader;
  getBlock : CBlock;
  getCoinbaseTx : CTransaction;
  getCoinbaseMerklePath : list uint256;
  getWitnessCommitmentIndex : Z
}.

Inductive Sv2NetMsg :=
| Sv2NewTemplateMsg (header : CBlockHeader) (coinbase_tx : CTransaction)
    (coinbase_merkle_path : list uint256) (witness_commitment_index : Z)
    (template_id : N) (future_template : bool)
| Sv2SetNewPrevHashMsg (header : CBlockHeader) (template_id : N)
| Sv2RequestTransactionDataSuccessMsg (template_id : N)
    (witness_reserve_value : list Byte.byte) (txs : list CTransaction)
| Sv2RequestTransactionDataErrorMsg (template_id : N) (reason : string).

Record Sv2Client := {
  m_id : N;
  m_coinbase_output_constraints_recv : bool;
  m_coinbase_tx_outputs_size : N;
  m_disconnect_flag : bool;
  m_send_messages : list Sv2NetMsg
}.

(** The message's field is [m_template_id]; the name is taken by the
    provider's counter below. *)
Record Sv2RequestTransactionDataMsg := { m_template_id_req : N }.

Record Sv2TemplateProviderOptions := {
  fee_check_interval : Z;
  fee_delta : Z;
  is_test : bool
}.

Inductive ChainType := MAIN | TESTNET | TESTNET4 | SIGNET | REGTEST.

#[global] Instance ChainType_eq_dec : EqDecision ChainType.
Proof. solve_decision. Defined.

(** The members guarded by [m_tp_mutex]. *)
Record TP := {
  m_best_prev_hash : uint256;
  m_last_block_time : Z;
  m_template_id : N;
  m_block_template_cache : gmap N BlockTemplate
}.

Definition set_cache (c : gmap N BlockTemplate) (tp : TP) : TP :=
  {| m_best_prev_hash := m_best_prev_hash tp;
     m_last_block_time := m_last_block_time tp;
     m_template_id := m_template_id tp;
     m_block_template_cache := c |}.

Definition set_tip (h : uint256) (now : Z) (tp : TP) : TP :=
  {| m_best_prev_hash := h;
     m_last_block_time := now;
     m_template_id := m_template_id tp;
     m_block_template_cache := m_block_template_cache tp |}.

Definition set_last_block_time (now : Z) (tp : TP) : TP :=
  {| m_best_prev_hash := m_best_prev_hash tp;
     m_last_block_time := now;
     m_template_id := m_template_id tp;
     m_block_template_cache := m_block_template_cache tp |}.

Definition set_template_id (i : N) (tp : TP) : TP :=
  {| m_best_prev_hash := m_best_prev_hash tp;
     m_last_block_time := m_last_block_time tp;
     m_template_id := i;
     m_block_template_cache := m_block_template_cache tp |}.

(** [++m_template_id] on a [uint64_t]. *)
Definition uint64_incr (n : N) : N := ((n + 1) mod 2 ^ 64)%N.

(** ** Template cache *)

(** [std::map::insert]: a key that is already present keeps its value. *)
Definition cache_insert (id : N) (t : BlockTemplate)
    (c : gmap N BlockTemplate) : gmap N BlockTemplate :=
  match c !! id with
  | Some _ => c
  | None => <[id := t]> c
  end.

(** The entries [std::erase_if] keeps: its predicate answers [true]
    (erase) when the header's parent differs from [prev_hash]. *)
Definition on_tip (prev_hash : uint256) (kv : N * BlockTemplate) : Prop :=
  hashPrevBlock (getBlockHeader kv.2) = prev_hash.

#[global] Instance on_tip_dec prev_hash kv : Decision (on_tip prev_hash kv).
Proof. unfold on_tip. apply _. Defined.

(** [PruneBlockTemplateCache], called with [m_tp_mutex] held; [now] is
    the reading of [GetTime<std::chrono::seconds>()]. *)
Definition PruneBlockTemplateCache (now : Z) (tp : TP) : TP :=
  let recent := now - 10 in
  if m_last_block_time tp >? recent then tp
  else
    let prev_hash := m_best_prev_hash tp in
    set_cache (filter (on_tip prev_hash) (m_block_template_cache tp)) tp.

(** ** Collaborators declared outside [template_provider.cpp] *)

(** [CScriptWitness::IsNull] and the constant [MAX_MONEY] are used by the
    code below but declared elsewhere; they are parameters. *)
Class Collaborators := {
  IsNull : CScriptWitness -> bool;
  MAX_MONEY : Z
}.

(** The node's own choice of the two: a witness is null when its stack is
    empty, and there are 21 million coins of 10^8 units. *)
Definition core_collaborators : Collaborators :=
  {| IsNull := fun w => match stack w with [] => true | _ => false end;
     MAX_MONEY := 21000000 * 100000000 |}.

Record BlockCreateOptions := {
  use_mempool : bool;
  block_reserved_weight : N
}.

(** [timeout] is in milliseconds; [None] is a default-constructed
    [BlockWaitOptions] whose [timeout] the caller never assigned. *)
Record BlockWaitOptions := {
  timeout : option Z;
  fee_threshold : Z
}.

(** ** The fee timer *)

Record Timer := {
  m_interval : Z;
  m_last_triggered : Z
}.

Definition Timer_reset (now : Z) (t : Timer) : Timer :=
  {| m_interval := m_interval t; m_last_triggered := now |}.

(** The constructor stores the interval and calls [reset]. *)
Definition Timer_new (interval now : Z) : Timer :=
  {| m_interval := interval; m_last_triggered := now |}.

Definition Timer_trigger (now : Z) (t : Timer) : bool * Timer :=
  if now - m_last_triggered t >=? m_interval t
  then (true, Timer_reset now t)
  else (false, t).

(** ** Shared state and programs over it *)

(** What the threads share: the members under [m_tp_mutex] and the
    transport's registry of clients under [m_clients_mutex].

    Modelled from the spec: the registry ([Sv2Connman], declared
    elsewhere) identifies a client by its unique id; [GetClientById] is
    the lookup. *)
Record World := {
  w_tp : TP;
  w_clients : gmap N Sv2Client
}.

Definition set_tp (tp : TP) (w : World) : World :=
  {| w_tp := tp; w_clients := w_clients w |}.

Definition set_clients (c : gmap N Sv2Client) (w : World) : World :=
  {| w_tp := w_tp w; w_clients := c |}.

Definition GetClientById (client_id : N) (w : World) : option Sv2Client :=
  w_clients w !! client_id.

(** The actions of a thread. [Atomic f] is one scope under a lock: [f]
    receives the clock reading available inside the scope. The other
    events are the calls to the clock, the interrupt flag, the [Mining]
    interface and the thread library. *)
Inductive Event : Type -> Type :=
| Atomic {X : Type} (f : Z -> World -> X * World) : Event X
| GetTime : Event Z
| FlagInterrupt : Event bool
| createNewBlock (o : BlockCreateOptions) : Event BlockTemplate
| waitNext (t : BlockTemplate) (o : BlockWaitOptions) : Event (option BlockTemplate)
| waitTipChanged (h : uint256) : Event (option uint256)
| isInitialBlockDownload : Event bool
| sleep_for (ms : Z) : Event unit
| spawn_thread (client_id : N) : Event unit
| join_thread (client_id : N) : Event unit.

Inductive Prog (A : Type) : Type :=
| Ret (a : A)
| Vis {X : Type} (e : Event X) (k : X -> Prog A).

Arguments Ret {A} a.
Arguments Vis {A X} e k.

Fixpoint bind {A B : Type} (p : Prog A) (f : A -> Prog B) : Prog B :=
  match p with
  | Ret a => f a
  | Vis e k => Vis e (fun x => bind (k x) f)
  end.

Definition call {X : Type} (e : Event X) : Prog X := Vis e Ret.

Declare Scope prog_scope.
Delimit Scope prog_scope with prog.
Notation "x <- p ;; q" := (bind p (fun x => q))
  (at level 100, p at next level, right associativity) : prog_scope.
Notation "p ;;; q" := (bind p (fun _ => q))
  (at level 100, right associativity) : prog_scope.
Local Open Scope prog_scope.

(** [LOCK(m_tp_mutex)] around a block that touches only the guarded
    members. *)
Definition with_tp {X : Type} (f : Z -> TP -> X * TP) : Prog X :=
  call (Atomic (fun now w => let '(x, tp) := f now (w_tp w) in (x, set_tp tp w))).

(** The calls a run makes to the [Mining] interface and the thread
    library, in program order. *)
Inductive Obs :=
| CallCreateNewBlock (o : BlockCreateOptions)
| CallWaitNext (t : BlockTemplate) (o : BlockWaitOptions)
| CallWaitTipChanged (h : uint256)
| CallIsInitialBlockDownload
| CallSleep (ms : Z)
| CallSpawn (client_id : N)
| CallJoin (client_id : N).

(** The environment: what each event is answered at the [n]-th action of
    the run. *)
Record Oracle := {
  clock : nat -> Z;
  interrupt : nat -> bool;
  new_block : nat -> BlockCreateOptions -> BlockTemplate;
  next_template : nat -> BlockTemplate -> BlockWaitOptions -> option BlockTemplate;
  tip_changed : nat -> uint256 -> option uint256;
  in_ibd : nat -> bool
}.

Definition handle {X : Type} (o : Oracle) (tick : nat) (e : Event X) (w : World)
    : X * World * list Obs :=
  match e in Event X return X * World * list Obs with
  | Atomic f => let '(x, w') := f (clock o tick) w in (x, w', [])
  | GetTime => (clock o tick, w, [])
  | FlagInterrupt => (interrupt o tick, w, [])
  | createNewBlock opts => (new_block o tick opts, w, [CallCreateNewBlock opts])
  | waitNext t opts => (next_template o tick t opts, w, [CallWaitNext t opts])
  | waitTipChanged h => (tip_changed o tick h, w, [CallWaitTipChanged h])
  | isInitialBlockDownload => (in_ibd o tick, w, [CallIsInitialBlockDownload])
  | sleep_for ms => (tt, w, [CallSleep ms])
  | spawn_thread id => (tt, w, [CallSpawn id])
  | join_thread id => (tt, w, [CallJoin id])
  end.

Record Run (A : Type) := {
  r_val : A;
  r_world : World;
  r_tick : nat;
  r_trace : list Obs
}.

(** [obs] happened before the run [r]. *)
Definition prepend {A : Type} (obs : list Obs) (r : Run A) : Run A :=
  {| r_val := r_val r; r_world := r_world r; r_tick := r_tick r;
     r_trace := obs ++ r_trace r |}.

Arguments prepend {A} obs !r /.

(** A thread running alone from action number [tick] in world [w]. *)
Fixpoint exec {A : Type} (o : Oracle) (p : Prog A) (tick : nat) (w : World) : Run A :=
  match p with
  | Ret a => {| r_val := a; r_world := w; r_tick := tick; r_trace := [] |}
  | Vis e k =>
      let '(x, w', obs) := handle o tick e w in
      prepend obs (exec o (k x) (S tick) w')
  end.

(** ** Emission *)

Definition emplace_back (msg : Sv2NetMsg) (client : Sv2Client) : Sv2Client :=
  {| m_id := m_id client;
     m_coinbase_output_constraints_recv := m_coinbase_output_constraints_recv client;
     m_coinbase_tx_outputs_size := m_coinbase_tx_outputs_size client;
     m_disconnect_flag := m_disconnect_flag client;
     m_send_messages := m_send_messages client ++ [msg] |}.

Definition set_disconnect_flag (b : bool) (client : Sv2Client) : Sv2Client :=
  {| m_id := m_id client;
     m_coinbase_output_constraints_recv := m_coinbase_output_constraints_recv client;
     m_coinbase_tx_outputs_size := m_coinbase_tx_outputs_size client;
     m_disconnect_flag := b;
     m_send_messages := m_send_messages client |}.

(** [SendWork]: the returned pair is the function's result and the client
    it was handed by reference. *)
Definition SendWork (client : Sv2Client) (template_id : N)
    (block_template : BlockTemplate) (future_template : bool) : bool * Sv2Client :=
  let header := getBlockHeader block_template in
  let new_template :=
    Sv2NewTemplateMsg header
                      (getCoinbaseTx block_template)
                      (getCoinbaseMerklePath block_template)
                      (getWitnessCommitmentIndex block_template)
                      template_id
                      future_template in
  let client := emplace_back new_template client in
  let client :=
    if future_template then
      let new_prev_hash := Sv2SetNewPrevHashMsg header template_id in
      emplace_back new_prev_hash client
    else client in
  (true, client).

(** ** Transaction-data queries *)

Section TransactionData.
Context `{Collaborators}.

(** Lines 343-357: the answer built from a block that passed both
    checks. Indexing a vector past its end has no defined result:
    [None]. *)
Definition transaction_data (template_id : N) (block : CBlock) : option Sv2NetMsg :=
  coinbase ← vtx block !! 0%nat;
  input ← vin coinbase !! 0%nat;
  let scriptWitness := scriptWitness input in
  witness_reserve_value ←
    (if negb (IsNull scriptWitness) then stack scriptWitness !! 0%nat else Some []);
  let txs := if (0 <? length (vtx block))%nat then drop 1 (vtx block) else [] in
  Some (Sv2RequestTransactionDataSuccessMsg template_id witness_reserve_value txs).

(** [RequestTransactionData]: the result is the client handed in by
    reference, or [None] when the code indexes out of bounds. *)
Definition RequestTransactionData (client : Sv2Client)
    (msg : Sv2RequestTransactionDataMsg) : Prog (option Sv2Client) :=
  let template_id := m_template_id_req msg in
  found <- with_tp (fun _ tp =>
    (match m_block_template_cache tp !! template_id with
     | None => inr (emplace_back
                 (Sv2RequestTransactionDataErrorMsg template_id "template-id-not-found")
                 client)
     | Some cached_block => inl (getBlock cached_block)
     end, tp)) ;;
  match found with
  | inr client => Ret (Some client)
  | inl block =>
      stale <- with_tp (fun _ tp =>
        (negb (bool_decide (hashPrevBlock (block_header block) = m_best_prev_hash tp)), tp)) ;;
      if (stale : bool) then
        Ret (Some (emplace_back
               (Sv2RequestTransactionDataErrorMsg template_id "stale-template-id")
               client))
      else
        Ret (match transaction_data template_id block with
             | Some success => Some (emplace_back success client)
             | None => None
             end)
  end.
End TransactionData.

(** The condition under which the indexing of lines 344-346 stays inside
    the vectors: the block has a first transaction, that transaction a
    first input, and a witness that is not null a first stack element. *)
Definition coinbase_in_bounds `{Collaborators} (block : CBlock) : bool :=
  match vtx block with
  | [] => false
  | coinbase :: _ =>
      match vin coinbase with
      | [] => false
      | input :: _ =>
          IsNull (scriptWitness input) ||
          match stack (scriptWitness input) with [] => false | _ :: _ => true end
      end
  end.

(** ** Per-client watcher *)

Inductive LoopCtl (S : Type) : Type :=
| Break
| Next (s : S).

Arguments Break {S}.
Arguments Next {S} s.

Inductive Outcome := Finished | OutOfFuel.

Section Watcher.
Context `{Collaborators}.
Variable m_options : Sv2TemplateProviderOptions.
(** The emission routine the watcher calls; [SendWork] in the program. *)
Variable send : Sv2Client -> N -> BlockTemplate -> bool -> bool * Sv2Client.
Variable client_id : N.

(** What lines 215-219 and 287-291 do to the client they found: emit, and
    raise [m_disconnect_flag] when the emission reports failure. *)
Definition send_or_disconnect (client : Sv2Client) (template_id : N)
    (block_template : BlockTemplate) (future_template : bool) : Sv2Client :=
  let '(ok, client) := send client template_id block_template future_template in
  if negb ok then set_disconnect_flag true client else client.

(** The scopes at lines 210-220 and 282-292: look the client up under the
    registry lock and emit. [id_of] yields the id argument, which the
    second scope reads from [m_template_id] under [m_tp_mutex]. The result
    is [false] when the client is gone. *)
Definition emit (id_of : TP -> N) (block_template : BlockTemplate)
    (future_template : bool) : Prog bool :=
  call (Atomic (fun _ w =>
    match GetClientById client_id w with
    | None => (false, w)
    | Some client =>
        let client :=
          send_or_disconnect client (id_of (w_tp w)) block_template future_template in
        (true, set_clients (<[client_id := client]> (w_clients w)) w)
    end)).

(** Lines 176-227: the body of [if (!block_template)]. *)
Definition initial_template (timer : Timer) : Prog (LoopCtl (Timer * BlockTemplate)) :=
  template_id <- with_tp (fun _ tp =>
    let tp := set_template_id (uint64_incr (m_template_id tp)) tp in
    (m_template_id tp, tp)) ;;
  weight <- call (Atomic (fun _ w =>
    (match GetClientById client_id w with
     | None => None
     | Some client => Some (2000 + m_coinbase_tx_outputs_size client * 4)%N
     end, w))) ;;
  match weight with
  | None => Ret Break
  | Some weight =>
      let options := {| use_mempool := true; block_reserved_weight := weight |} in
      block_template <- call (createNewBlock options) ;;
      let prev_hash := hashPrevBlock (getBlockHeader block_template) in
      with_tp (fun now tp =>
        (tt, if bool_decide (prev_hash ≠ m_best_prev_hash tp)
             then set_tip prev_hash now tp
             else tp)) ;;;
      present <- emit (fun _ => template_id) block_template true ;;
      if negb present then Ret Break
      else
        now <- call GetTime ;;
        let timer := Timer_reset now timer in
        with_tp (fun _ tp =>
          (tt, set_cache (cache_insert template_id block_template
                            (m_block_template_cache tp)) tp)) ;;;
        Ret (Next (timer, block_template))
  end.

(** Line 237: [m_options.is_test || timer.trigger()]; the timer is not
    consulted in test mode. *)
Definition decide_check_fees (timer : Timer) : Prog (bool * Timer) :=
  if is_test m_options then Ret (true, timer)
  else now <- call GetTime ;; Ret (Timer_trigger now timer).

(** Lines 239-253. *)
Definition wait_options (check_fees : bool) : BlockWaitOptions :=
  let fee_delta := if check_fees then fee_delta m_options else MAX_MONEY in
  {| fee_threshold := fee_delta;
     timeout :=
       if negb check_fees then Some (1000 * fee_check_interval m_options)
       else if is_test m_options then Some 1000
       else None |}.

(** Lines 264-302: what the watcher does with the answer of [waitNext]. *)
Definition handle_next (timer : Timer) (block_template : BlockTemplate)
    (old_prev_hash : uint256) (tmpl : option BlockTemplate)
    : Prog (LoopCtl (Timer * BlockTemplate)) :=
  match tmpl with
  | Some tmpl =>
      let block_template := tmpl in
      let new_prev_hash := hashPrevBlock (getBlockHeader block_template) in
      future_template <- with_tp (fun now tp =>
        let '(future_template, tp) :=
          if bool_decide (new_prev_hash ≠ old_prev_hash)
          then (true, set_tip new_prev_hash now tp)
          else (false, tp) in
        (future_template, set_template_id (uint64_incr (m_template_id tp)) tp)) ;;
      present <- emit m_template_id block_template future_template ;;
      if negb present then Ret Break
      else
        now <- call GetTime ;;
        let timer := Timer_reset now timer in
        with_tp (fun _ tp =>
          (tt, set_cache (cache_insert (m_template_id tp) block_template
                            (m_block_template_cache tp)) tp)) ;;;
        Ret (Next (timer, block_template))
  | None => Ret (Next (timer, block_template))
  end.

(** Lines 229-308: the rest of the loop body, entered with a template. *)
Definition steady_state (timer : Timer) (block_template : BlockTemplate)
    : Prog (LoopCtl (Timer * BlockTemplate)) :=
  ct <- decide_check_fees timer ;;
  let check_fees := ct.1 in
  let timer := ct.2 in
  let options := wait_options check_fees in
  let old_prev_hash := hashPrevBlock (getBlockHeader block_template) in
  tmpl <- call (waitNext block_template options) ;;
  present <- call (Atomic (fun _ w =>
    (bool_decide (is_Some (GetClientById client_id w)), w))) ;;
  if negb present then Ret Break
  else
    r <- handle_next timer block_template old_prev_hash tmpl ;;
    match r with
    | Break => Ret Break
    | Next s =>
        (if is_test m_options then call (sleep_for 50) else Ret tt) ;;;
        Ret (Next s)
    end.

(** One pass through the body of [while (!m_flag_interrupt_sv2)]. *)
Definition loop_body (timer : Timer) (block_template : option BlockTemplate)
    : Prog (LoopCtl (Timer * BlockTemplate)) :=
  r <- match block_template with
       | None => initial_template timer
       | Some t => Ret (Next (timer, t))
       end ;;
  match r with
  | Break => Ret Break
  | Next s => steady_state s.1 s.2
  end.

Fixpoint watcher_loop (fuel : nat) (timer : Timer)
    (block_template : option BlockTemplate) : Prog Outcome :=
  match fuel with
  | O => Ret OutOfFuel
  | S fuel =>
      stop <- call FlagInterrupt ;;
      if (stop : bool) then Ret Finished
      else
        r <- loop_body timer block_template ;;
        match r with
        | Break => Ret Finished
        | Next s => watcher_loop fuel s.1 (Some s.2)
        end
  end.

Definition ThreadSv2ClientHandler_with (fuel : nat) : Prog Outcome :=
  now <- call GetTime ;;
  watcher_loop fuel (Timer_new (fee_check_interval m_options) now) None.
End Watcher.

Definition ThreadSv2ClientHandler `{Collaborators}
    (m_options : Sv2TemplateProviderOptions) (client_id : N) (fuel : nat) : Prog Outcome :=
  ThreadSv2ClientHandler_with m_options SendWork client_id fuel.

(** ** Supervisor *)

(** The callback given to [ForEachClient] at lines 133-150, applied to one
    client: [acc.1] is [client_threads], [acc.2] the threads started by
    this enumeration so far. *)
Definition spawn_if_ready (acc : gset N * list N) (client : Sv2Client)
    : gset N * list N :=
  if negb (m_coinbase_output_constraints_recv client) then acc
  else if bool_decide (m_id client ∈ acc.1) then acc
  else ({[ m_id client ]} ∪ acc.1, acc.2 ++ [m_id client]).

(** Modelled from the spec: [ForEachClient] applies the callback to every
    registered client under the registry's lock. *)
Definition ForEachClient {A : Type} (f : A -> Sv2Client -> A) (init : A) (w : World) : A :=
  foldl f init (map snd (map_to_list (w_clients w))).

Fixpoint spawn_all (ids : list N) : Prog unit :=
  match ids with
  | [] => Ret tt
  | id :: ids => call (spawn_thread id) ;;; spawn_all ids
  end.

Fixpoint join_all (ids : list N) : Prog unit :=
  match ids with
  | [] => Ret tt
  | id :: ids => call (join_thread id) ;;; join_all ids
  end.

Section Supervisor.
Variable chain : ChainType.

(** Lines 118-125. *)
Fixpoint wait_for_ibd (fuel : nat) : Prog Outcome :=
  match fuel with
  | O => Ret OutOfFuel
  | S fuel =>
      stop <- call FlagInterrupt ;;
      if negb stop && negb (bool_decide (chain = SIGNET)) then
        ibd <- call isInitialBlockDownload ;;
        if negb ibd then Ret Finished
        else call (sleep_for 1000) ;;; wait_for_ibd fuel
      else Ret Finished
  end.

(** Lines 129-157. The threads are created inside the enumeration; here
    they are recorded right after it. *)
Fixpoint main_loop (fuel : nat) (client_threads : gset N) : Prog (Outcome * gset N) :=
  match fuel with
  | O => Ret (OutOfFuel, client_threads)
  | S fuel =>
      stop <- call FlagInterrupt ;;
      if (stop : bool) then Ret (Finished, client_threads)
      else
        acc <- call (Atomic (fun _ w =>
          (ForEachClient spawn_if_ready (client_threads, []) w, w))) ;;
        spawn_all acc.2 ;;;
        call (sleep_for 100) ;;;
        with_tp (fun now tp => (tt, PruneBlockTemplateCache now tp)) ;;;
        main_loop fuel acc.1
  end.

(** Lines 127-165: the main loop, then the joins. [client_threads] is a
    [std::map], joined by ascending id. *)
Definition serve_clients (fuel_main : nat) : Prog Outcome :=
  r <- main_loop fuel_main ∅ ;;
  match r.1 with
  | OutOfFuel => Ret OutOfFuel
  | Finished => join_all (merge_sort N.le (elements r.2)) ;;; Ret Finished
  end.

(** Lines 117-165: what follows once the tip is known and
    [m_last_block_time] is set. *)
Definition wait_then_serve (fuel_ibd fuel_main : nat) : Prog Outcome :=
  ready <- wait_for_ibd fuel_ibd ;;
  match ready with
  | OutOfFuel => Ret OutOfFuel
  | Finished => serve_clients fuel_main
  end.

(** [ThreadSv2Handler]. The [Assume] at line 109 is a debug check with no
    effect on the run. *)
Definition ThreadSv2Handler (fuel_ibd fuel_main : nat) : Prog Outcome :=
  tip <- call (waitTipChanged uint256_ZERO) ;;
  match tip with
  | None => Ret Finished
  | Some _ =>
      with_tp (fun now tp => (tt, set_last_block_time now tp)) ;;;
      wait_then_serve fuel_ibd fuel_main
  end.
End Supervisor.

(** ** Threads running together *)

(** One action of thread [i] of the pool; a thread that has returned, or
    an index outside the pool, does nothing. *)
Definition step_thread (o : Oracle) (tick : nat) (i : nat)
    (pool : list (Prog Outcome)) (w : World) : list (Prog Outcome) * World :=
  match pool !! i with
  | Some (Vis e k) =>
      let '(x, w', _) := handle o tick e w in
      (<[i := k x]> pool, w')
  | _ => (pool, w)
  end.

(** The pool run under a schedule: the list of the threads that act, in
    order. *)
Fixpoint run_schedule (o : Oracle) (schedule : list nat) (tick : nat)
    (pool : list (Prog Outcome)) (w : World) : list (Prog Outcome) * World :=
  match schedule with
  | [] => (pool, w)
  | i :: schedule =>
      let '(pool, w) := step_thread o tick i pool w in
      run_schedule o schedule (S tick) pool w
  end.

(** ** Concrete values used by the examples *)

Definition ex_header (prev : uint256) (rest : N) : CBlockHeader :=
  {| hashPrevBlock := prev; header_rest := rest |}.

Arguments ex_header (prev rest)%_N.

Definition ex_tx (tag : N) (witness : list (list Byte.byte)) : CTransaction :=
  {| tx_tag := tag; vin := [ {| scriptWitness := {| stack := witness |} |} ] |}.

(** A template on parent [prev]: a coinbase whose witness stack is
    [witness], followed by the transactions tagged [1] and [2]. *)
Definition ex_template (prev : uint256) (rest : N) (witness : list (list Byte.byte))
    : BlockTemplate :=
  {| getBlockHeader := ex_header prev rest;
     getBlock := {| block_header := ex_header prev rest;
                    vtx := [ex_tx 0 witness; ex_tx 1 []; ex_tx 2 []] |};
     getCoinbaseTx := ex_tx 0 witness;
     getCoinbaseMerklePath := [];
     getWitnessCommitmentIndex := 0 |}.

Arguments ex_tx tag%_N witness%_list.
Arguments ex_template (prev rest)%_N witness%_list.

Definition ex_tp (best : uint256) (last : Z) (id : N)
    (cache : gmap N BlockTemplate) : TP :=
  {| m_best_prev_hash := best;
     m_last_block_time := last;
     m_template_id := id;
     m_block_template_cache := cache |}.

Arguments ex_tp best%_N last%_Z id%_N cache.

Definition ex_client (id : N) : Sv2Client :=
  {| m_id := id;
     m_coinbase_output_constraints_recv := true;
     m_coinbase_tx_outputs_size := 1;
     m_disconnect_flag := false;
     m_send_messages := [] |}.

Arguments ex_client id%_N.

Definition ex_options : Sv2TemplateProviderOptions :=
  {| fee_check_interval := 30; fee_delta := 1000; is_test := false |}.

(** An environment in which the clock stands at 1000, the node is ready,
    the first template of every client is on parent [7], and every
    [waitNext] is answered by a template on the new parent [8], marked
    with the number of the action that asked. *)
Definition ex_oracle : Oracle :=
  {| clock := fun _ => 1000;
     interrupt := fun _ => false;
     new_block := fun _ _ => ex_template 7 0 [];
     next_template := fun n _ _ => Some (ex_template 8 (N.of_nat n) []);
     tip_changed := fun _ _ => Some 7%N;
     in_ibd := fun _ => false |}.

(** As [ex_oracle], but the clock advances by 100 s per action and every
    [waitNext] is answered by a template on the same parent [7]. *)
Definition ex_oracle_fees : Oracle :=
  {| clock := fun n => 1000 + 100 * Z.of_nat n;
     interrupt := fun _ => false;
     new_block := fun _ _ => ex_template 7 0 [];
     next_template := fun n _ _ => Some (ex_template 7 (N.of_nat n) []);
     tip_changed := fun _ _ => Some 7%N;
     in_ibd := fun _ => false |}.

(** The node shuts down before it publishes a tip. *)
Definition ex_oracle_shutdown : Oracle :=
  {| clock := fun _ => 1000;
     interrupt := fun _ => true;
     new_block := fun _ _ => ex_template 7 0 [];
     next_template := fun _ _ _ => None;
     tip_changed := fun _ _ => None;
     in_ibd := fun _ => false |}.

(** The node leaves initial block download before its ninth action. *)
Definition ex_oracle_ibd : Oracle :=
  {| clock := fun _ => 1000;
     interrupt := fun _ => false;
     new_block := fun _ _ => ex_template 7 0 [];
     next_template := fun _ _ _ => None;
     tip_changed := fun _ _ => Some 7%N;
     in_ibd := fun n => (n <? 9)%nat |}.

(** Two clients that completed setup, no template issued yet. *)
Definition ex_world : World :=
  {| w_tp := ex_tp 0 0 0 ∅;
     w_clients := <[ 2%N := ex_client 2 ]> {[ 1%N := ex_client 1 ]} |}.

(** After a tip change from [7] to [8]: template [1] is on the old parent,
    template [2] on the new one, with a witness reserve value. *)
Definition ex_world_after_tip : World :=
  {| w_tp := ex_tp 8 100 2
               (<[ 2%N := ex_template 8 0 [[Byte.x01; Byte.x02; Byte.x03]] ]>
                  {[ 1%N := ex_template 7 0 [] ]});
     w_clients := {[ 1%N := ex_client 1 ]} |}.

(** The watchers of clients [1] and [2]. *)
Definition ex_pool : list (Prog Outcome) :=
  [ ThreadSv2ClientHandler (H := core_collaborators) ex_options 1 2;
    ThreadSv2ClientHandler (H := core_collaborators) ex_options 2 2 ].

(** The actions of a watcher, in order: the timer's constructor (line
    172), the loop condition (175), the id allocation (182), the client
    lookup (186-193), [createNewBlock] (196), the tip update (201-208),
    the emission (210-220), [timer.reset] (223), the cache insert
    (225-226), [timer.trigger] (237), [waitNext] (256), the client lookup
    (259-262); then lines 268-280, lines 282-292, [timer.reset] (294) and
    the cache insert (296-297).

    In this schedule each watcher first runs its twelve actions up to the
    return from [waitNext]; then the two alternate through lines 268-280
    and through lines 282-292, and each finishes with lines 294-297. *)
Definition ex_schedule : list nat :=
  replicate 12 0%nat ++ replicate 12 1%nat ++ [0; 1; 0; 1; 0; 0; 1; 1]%nat.

(** Template [1], on parent [7], was issued to client [1] at time 100;
    client [1] has since left the registry. *)
Definition ex_world_client_gone : World :=
  {| w_tp := ex_tp 7 100 1 {[ 1%N := ex_template 7 0 [] ]};
     w_clients := {[ 2%N := ex_client 2 ]} |}.

(** [n] rounds of the poll loop of lines 118-125. *)
Definition ibd_polls (n : nat) : list Obs :=
  concat (replicate n [CallIsInitialBlockDownload; CallSleep 1000]).

(** * Further definitions *)

(** ** The certificate of the constructor *)

(** [static_cast<uint32_t>] of a count of seconds. *)
Definition uint32_of (z : Z) : Z := z mod 2 ^ 32.

(** Line 32: [valid_from], computed in [uint32_t]. *)
Definition certificate_valid_from (now : Z) : Z := (uint32_of now - 3600) mod 2 ^ 32.

(** Line 33: [std::numeric_limits<unsigned int>::max()]. *)
Definition certificate_valid_to : Z := 2 ^ 32 - 1.

(** ** Calls in sequence *)

(** The clock readings at which successive calls of [Timer::trigger]
    answer [true]. *)
Fixpoint Timer_fired (times : list Z) (t : Timer) : list Z :=
  match times with
  | [] => []
  | now :: times =>
      let '(fired, t) := Timer_trigger now t in
      if fired then now :: Timer_fired times t else Timer_fired times t
  end.

(** The threads a run started, and those it joined, in order. *)
Definition spawned (trace : list Obs) : list N :=
  omap (fun c => match c with CallSpawn id => Some id | _ => None end) trace.

Definition joined (trace : list Obs) : list N :=
  omap (fun c => match c with CallJoin id => Some id | _ => None end) trace.

(** The answers [RequestTransactionData] gives to a request for [id]. *)
Definition answers (id : N) (msg : Sv2NetMsg) : bool :=
  match msg with
  | Sv2RequestTransactionDataSuccessMsg i _ _ => bool_decide (i = id)
  | Sv2RequestTransactionDataErrorMsg i reason =>
      bool_decide (i = id) &&
      (bool_decide (reason = "template-id-not-found"%string) ||
       bool_decide (reason = "stale-template-id"%string))
  | _ => false
  end.

(** A send queue in which every [NewTemplate] for a future template is
    directly followed by the [SetNewPrevHash] with its header and id, and
    no [SetNewPrevHash] stands elsewhere. *)
Inductive WellPaired : list Sv2NetMsg -> Prop :=
| WellPaired_nil : WellPaired []
| WellPaired_future header coinbase_tx path index id q :
    WellPaired q ->
    WellPaired (Sv2NewTemplateMsg header coinbase_tx path index id true ::
                Sv2SetNewPrevHashMsg header id :: q)
| WellPaired_fees header coinbase_tx path index id q :
    WellPaired q ->
    WellPaired (Sv2NewTemplateMsg header coinbase_tx path index id false :: q)
| WellPaired_success id value txs q :
    WellPaired q ->
    WellPaired (Sv2RequestTransactionDataSuccessMsg id value txs :: q)
| WellPaired_error id reason q :
    WellPaired q ->
    WellPaired (Sv2RequestTransactionDataErrorMsg id reason :: q).

(** Every action a program can come to keeps [I], whatever the clock
    reads and whatever its calls are answered. *)
Fixpoint Keeps (I : World -> Prop) {A : Type} (p : Prog A) : Prop :=
  match p with
  | Ret _ => True
  | Vis e k =>
      (forall o tick w, I w -> I (handle o tick e w).1.2) /\
      (forall x, Keeps I (k x))
  end.

(** [I] survives the updates a watcher of [client_id] makes: a new value
    of [m_template_id], a new tip, an insertion in the cache, and an
    emission to its client. *)
Definition watcher_stable (I : World -> Prop)
    (send : Sv2Client -> N -> BlockTemplate -> bool -> bool * Sv2Client)
    (client_id : N) : Prop :=
  (forall w i, I w -> I (set_tp (set_template_id i (w_tp w)) w)) /\
  (forall w h now, I w -> I (set_tp (set_tip h now (w_tp w)) w)) /\
  (forall w id t, I w ->
     I (set_tp (set_cache (cache_insert id t (m_block_template_cache (w_tp w)))
                  (w_tp w)) w)) /\
  (forall w client id t future, I w ->
     GetClientById client_id w = Some client ->
     I (set_clients (<[client_id := send_or_disconnect send client id t future]>
                       (w_clients w)) w)).

(** [I] survives the updates the supervisor makes: the initial value of
    [m_last_block_time], and pruning. *)
Definition supervisor_stable (I : World -> Prop) : Prop :=
  (forall w now, I w -> I (set_tp (set_last_block_time now (w_tp w)) w)) /\
  (forall w now, I w -> I (set_tp (PruneBlockTemplateCache now (w_tp w)) w)).

(** The programs of the provider's threads. *)
Definition is_watcher `{Collaborators} (p : Prog Outcome) : Prop :=
  exists m_options client_id fuel, p = ThreadSv2ClientHandler m_options client_id fuel.

Definition is_supervisor (p : Prog Outcome) : Prop :=
  exists chain fuel_ibd fuel_main, p = ThreadSv2Handler chain fuel_ibd fuel_main.

(** A watcher of another client than [other], with any emission routine. *)
Definition is_watcher_beside `{Collaborators} (other : N) (p : Prog Outcome) : Prop :=
  exists m_options send client_id fuel,
    client_id <> other /\ p = ThreadSv2ClientHandler_with m_options send client_id fuel.

Definition all_well_paired (w : World) : Prop :=
  forall id client, w_clients w !! id = Some client -> WellPaired (m_send_messages client).

(** A watcher with any emission routine. *)
Definition is_watcher_with `{Collaborators} (p : Prog Outcome) : Prop :=
  exists m_options send client_id fuel,
    p = ThreadSv2ClientHandler_with m_options send client_id fuel.



(** The node is ready; the interrupt flag is raised from the tenth action
    on. *)
Definition ex_oracle_stop : Oracle :=
  {| clock := fun _ => 1000;
     interrupt := fun n => (10 <=? n)%nat;
     new_block := fun _ _ => ex_template 7 0 [];
     next_template := fun _ _ _ => None;
     tip_changed := fun _ _ => Some 7%N;
     in_ibd := fun _ => false |}.

(** The options of the [createNewBlock] calls of a run, in order. *)
Definition created (trace : list Obs) : list BlockCreateOptions :=
  omap (fun c => match c with CallCreateNewBlock o => Some o | _ => None end) trace.

(** * Properties *)

(** ** Running a program *)

Lemma exec_bind {A B : Type} (o : Oracle) (p : Prog A) (f : A -> Prog B) tick w :
  exec o (bind p f) tick w =
  prepend (r_trace (exec o p tick w))
    (exec o (f (r_val (exec o p tick w)))
       (r_tick (exec o p tick w)) (r_world (exec o p tick w))).
Proof.
  revert tick w. induction p as [a | X e k IH]; intros tick w; simpl.
  - by destruct (exec o (f a) tick w).
  - destruct (handle o tick e w) as [[x w'] obs].
    rewrite IH. unfold prepend. simpl. by rewrite app_assoc.
Qed.

Lemma prepend_nil {A : Type} (r : Run A) : prepend [] r = r.
Proof. by destruct r. Qed.

(** ** Template cache *)

(** C1, as stated, fails at the boundary: exactly ten seconds after the
    last tip change the cache is pruned, and a template on the old parent
    is erased. *)
Lemma PruneBlockTemplateCache_at_ten_seconds :
  110 - m_last_block_time (ex_tp 8 100 1 {[ 1%N := ex_template 7 0 [] ]}) <= 10 /\
  m_block_template_cache (ex_tp 8 100 1 {[ 1%N := ex_template 7 0 [] ]}) !! 1%N
    = Some (ex_template 7 0 []) /\
  m_block_template_cache
    (PruneBlockTemplateCache 110 (ex_tp 8 100 1 {[ 1%N := ex_template 7 0 [] ]})) !! 1%N
    = None.
Proof.
  split; [simpl; lia |]. split; [by vm_compute |]. by vm_compute.
Qed.

(** C1 (amended): while fewer than ten seconds have passed since
    [m_last_block_time], pruning changes nothing; from ten seconds on, the
    cache keeps exactly the entries whose header's [hashPrevBlock] is
    [m_best_prev_hash], each with its template, and the other guarded
    members keep their values. *)
Theorem PruneBlockTemplateCache_grace_then_tip (now : Z) (tp : TP) :
  (now - m_last_block_time tp < 10 -> PruneBlockTemplateCache now tp = tp) /\
  (10 <= now - m_last_block_time tp ->
     m_best_prev_hash (PruneBlockTemplateCache now tp) = m_best_prev_hash tp /\
     m_last_block_time (PruneBlockTemplateCache now tp) = m_last_block_time tp /\
     m_template_id (PruneBlockTemplateCache now tp) = m_template_id tp /\
     forall (id : N) (t : BlockTemplate),
       m_block_template_cache (PruneBlockTemplateCache now tp) !! id = Some t <->
       m_block_template_cache tp !! id = Some t /\
       hashPrevBlock (getBlockHeader t) = m_best_prev_hash tp).
Proof.
  unfold PruneBlockTemplateCache. split; intros Hage.
  - destruct (Z.gtb_spec (m_last_block_time tp) (now - 10)); [done | lia].
  - destruct (Z.gtb_spec (m_last_block_time tp) (now - 10)); [lia |].
    do 3 (split; [done |]). intros id t. simpl.
    rewrite map_lookup_filter_Some. reflexivity.
Qed.

Lemma PruneBlockTemplateCache_grace_then_tip_witness :
  PruneBlockTemplateCache 109 (ex_tp 8 100 1 {[ 1%N := ex_template 7 0 [] ]})
    = ex_tp 8 100 1 {[ 1%N := ex_template 7 0 [] ]} /\
  m_block_template_cache
    (PruneBlockTemplateCache 110
       (ex_tp 8 100 2 (<[ 2%N := ex_template 8 0 [] ]> {[ 1%N := ex_template 7 0 [] ]})))
    !! 2%N = Some (ex_template 8 0 []).
Proof.
  split.
  - refine (proj1 (PruneBlockTemplateCache_grace_then_tip 109
                     (ex_tp 8 100 1 {[ 1%N := ex_template 7 0 [] ]})) _).
    simpl. lia.
  - refine (proj2 (proj2 (proj2 (proj2 (proj2
              (PruneBlockTemplateCache_grace_then_tip 110
                 (ex_tp 8 100 2 (<[ 2%N := ex_template 8 0 [] ]>
                                   {[ 1%N := ex_template 7 0 [] ]}))) _)))
              2%N (ex_template 8 0 [])) _).
    + simpl. lia.
    + split; [by vm_compute | reflexivity].
Defined.

(** ** Emission *)

(** C3: [SendWork] appends to the client's queue a [NewTemplate] carrying
    the template id and the [future_template] flag, then, exactly when
    [future_template] is set, a [SetNewPrevHash] with the same header and
    id, and nothing else; it touches no other field and reports success. *)
Theorem SendWork_queue (client : Sv2Client) (template_id : N)
    (block_template : BlockTemplate) (future_template : bool) :
  SendWork client template_id block_template future_template =
  (true,
   {| m_id := m_id client;
      m_coinbase_output_constraints_recv := m_coinbase_output_constraints_recv client;
      m_coinbase_tx_outputs_size := m_coinbase_tx_outputs_size client;
      m_disconnect_flag := m_disconnect_flag client;
      m_send_messages :=
        m_send_messages client ++
        Sv2NewTemplateMsg (getBlockHeader block_template)
                          (getCoinbaseTx block_template)
                          (getCoinbaseMerklePath block_template)
                          (getWitnessCommitmentIndex block_template)
                          template_id future_template ::
        (if future_template
         then [Sv2SetNewPrevHashMsg (getBlockHeader block_template) template_id]
         else []) |}).
Proof.
  unfold SendWork, emplace_back. destruct future_template; simpl.
  - by rewrite <- app_assoc.
  - reflexivity.
Qed.

(** ** Transaction-data queries *)

Lemma set_tp_same (w : World) : set_tp (w_tp w) w = w.
Proof. by destruct w. Qed.

Lemma RequestTransactionData_run_absent `{Collaborators} (o : Oracle) (tick : nat)
    (w : World) (client : Sv2Client) (msg : Sv2RequestTransactionDataMsg) :
  m_block_template_cache (w_tp w) !! m_template_id_req msg = None ->
  exec o (RequestTransactionData client msg) tick w =
  {| r_val := Some (emplace_back
                      (Sv2RequestTransactionDataErrorMsg (m_template_id_req msg)
                                                         "template-id-not-found") client);
     r_world := w; r_tick := S tick; r_trace := [] |}.
Proof.
  intros Hnone. unfold RequestTransactionData. simpl. rewrite Hnone. simpl.
  by rewrite set_tp_same.
Qed.

Lemma RequestTransactionData_run_stale `{Collaborators} (o : Oracle) (tick : nat)
    (w : World) (client : Sv2Client) (msg : Sv2RequestTransactionDataMsg)
    (t : BlockTemplate) :
  m_block_template_cache (w_tp w) !! m_template_id_req msg = Some t ->
  hashPrevBlock (block_header (getBlock t)) <> m_best_prev_hash (w_tp w) ->
  exec o (RequestTransactionData client msg) tick w =
  {| r_val := Some (emplace_back
                      (Sv2RequestTransactionDataErrorMsg (m_template_id_req msg)
                                                         "stale-template-id") client);
     r_world := w; r_tick := S (S tick); r_trace := [] |}.
Proof.
  intros Hsome Hstale. unfold RequestTransactionData. simpl. rewrite Hsome. simpl.
  rewrite set_tp_same. rewrite bool_decide_false by done. simpl.
  by rewrite set_tp_same.
Qed.

Lemma RequestTransactionData_run_fresh `{Collaborators} (o : Oracle) (tick : nat)
    (w : World) (client : Sv2Client) (msg : Sv2RequestTransactionDataMsg)
    (t : BlockTemplate) :
  m_block_template_cache (w_tp w) !! m_template_id_req msg = Some t ->
  hashPrevBlock (block_header (getBlock t)) = m_best_prev_hash (w_tp w) ->
  exec o (RequestTransactionData client msg) tick w =
  {| r_val := (fun success => emplace_back success client) <$>
                transaction_data (m_template_id_req msg) (getBlock t);
     r_world := w; r_tick := S (S tick); r_trace := [] |}.
Proof.
  intros Hsome Htip. unfold RequestTransactionData. simpl. rewrite Hsome. simpl.
  rewrite set_tp_same. rewrite bool_decide_true by done. simpl.
  rewrite set_tp_same. by destruct (transaction_data _ _).
Qed.

Lemma transaction_data_in_bounds `{Collaborators} (template_id : N) (block : CBlock) :
  is_Some (transaction_data template_id block) <-> coinbase_in_bounds block = true.
Proof.
  unfold transaction_data, coinbase_in_bounds.
  destruct (vtx block) as [| coinbase txs]; simpl.
  { split; [intros [? ?]; done | done]. }
  destruct (vin coinbase) as [| input inputs]; simpl.
  { split; [intros [? ?]; done | done]. }
  destruct (IsNull (scriptWitness input)); simpl.
  { split; [done | by eexists]. }
  destruct (stack (scriptWitness input)); simpl.
  - split; [intros [? ?]; done | done].
  - split; [done | by eexists].
Qed.


(** C5: for a cached template on the current tip whose block starts with
    a coinbase that has an input, the request appends to the client's
    queue exactly one [RequestTransactionData.Success], which carries the
    first stack element of that input's witness (the empty vector when the
    witness is null) and the block's transactions after the coinbase; the
    client's other fields and the provider's state are as before. *)
Theorem RequestTransactionData_success `{Collaborators} (o : Oracle) (tick : nat)
    (w : World) (client : Sv2Client) (msg : Sv2RequestTransactionDataMsg)
    (t : BlockTemplate) (coinbase : CTransaction) (txs : list CTransaction)
    (input : CTxIn) (inputs : list CTxIn) (witness_reserve_value : list Byte.byte) :
  m_block_template_cache (w_tp w) !! m_template_id_req msg = Some t ->
  hashPrevBlock (block_header (getBlock t)) = m_best_prev_hash (w_tp w) ->
  vtx (getBlock t) = coinbase :: txs ->
  vin coinbase = input :: inputs ->
  (if IsNull (scriptWitness input)
   then witness_reserve_value = []
   else stack (scriptWitness input) !! 0%nat = Some witness_reserve_value) ->
  r_val (exec o (RequestTransactionData client msg) tick w) =
    Some {| m_id := m_id client;
            m_coinbase_output_constraints_recv := m_coinbase_output_constraints_recv client;
            m_coinbase_tx_outputs_size := m_coinbase_tx_outputs_size client;
            m_disconnect_flag := m_disconnect_flag client;
            m_send_messages :=
              m_send_messages client ++
              [Sv2RequestTransactionDataSuccessMsg (m_template_id_req msg)
                                                   witness_reserve_value txs] |} /\
  txs = drop 1 (vtx (getBlock t)) /\
  r_world (exec o (RequestTransactionData client msg) tick w) = w.
Proof.
  intros Hsome Htip Hvtx Hvin Hwrv.
  rewrite (RequestTransactionData_run_fresh _ _ _ Hsome Htip). simpl.
  unfold transaction_data. rewrite Hvtx. simpl. rewrite Hvin. simpl.
  destruct (IsNull (scriptWitness input)); simpl.
  - by subst.
  - rewrite Hwrv. simpl. done.
Qed.

(** C10: on the success path the answer exists exactly when the block has
    a coinbase with an input whose witness, if not null, has a stack
    element; a block without transactions, or a coinbase without inputs,
    is indexed past its end. Under that condition the guard
    [block.vtx.size() > 0] before the copy holds, and when every cached
    block meets it every request is answered. *)
Theorem RequestTransactionData_in_bounds `{Collaborators} (o : Oracle) (tick : nat)
    (w : World) (client : Sv2Client) (msg : Sv2RequestTransactionDataMsg) :
  (forall t : BlockTemplate,
     m_block_template_cache (w_tp w) !! m_template_id_req msg = Some t ->
     hashPrevBlock (block_header (getBlock t)) = m_best_prev_hash (w_tp w) ->
     (is_Some (r_val (exec o (RequestTransactionData client msg) tick w)) <->
      coinbase_in_bounds (getBlock t) = true)) /\
  (forall block : CBlock,
     coinbase_in_bounds block = true -> (0 <? length (vtx block))%nat = true) /\
  ((forall (id : N) (t : BlockTemplate),
      m_block_template_cache (w_tp w) !! id = Some t ->
      coinbase_in_bounds (getBlock t) = true) ->
   is_Some (r_val (exec o (RequestTransactionData client msg) tick w))).
Proof.
  split; [| split].
  - intros t Hsome Htip. rewrite (RequestTransactionData_run_fresh _ _ _ Hsome Htip).
    simpl. rewrite <- transaction_data_in_bounds. by rewrite fmap_is_Some.
  - intros block. unfold coinbase_in_bounds. by destruct (vtx block).
  - intros Hall.
    destruct (m_block_template_cache (w_tp w) !! m_template_id_req msg) as [t |] eqn:Hsome.
    + destruct (decide (hashPrevBlock (block_header (getBlock t)) = m_best_prev_hash (w_tp w)))
        as [Htip | Hstale].
      * rewrite (RequestTransactionData_run_fresh _ _ _ Hsome Htip). simpl.
        rewrite fmap_is_Some. apply transaction_data_in_bounds. by eapply Hall.
      * rewrite (RequestTransactionData_run_stale _ _ _ Hsome Hstale). by eexists.
    + rewrite (RequestTransactionData_run_absent _ _ _ Hsome). by eexists.
Qed.

(** ** Per-client watcher *)

Section WatcherRuns.
Context `{Collaborators}.
Variable m_options : Sv2TemplateProviderOptions.
Variable send : Sv2Client -> N -> BlockTemplate -> bool -> bool * Sv2Client.
Variable client_id : N.
Variable o : Oracle.

Lemma exec_initial_template_gone timer tick w :
  GetClientById client_id w = None ->
  exec o (initial_template send client_id timer) tick w =
  {| r_val := Break;
     r_world := set_tp (set_template_id (uint64_incr (m_template_id (w_tp w))) (w_tp w)) w;
     r_tick := S (S tick);
     r_trace := [] |}.
Proof.
  intros Hclient. unfold GetClientById in Hclient.
  unfold initial_template, GetClientById. simpl. by rewrite Hclient.
Qed.

Lemma exec_initial_template timer tick w client :
  GetClientById client_id w = Some client ->
  exec o (initial_template send client_id timer) tick w =
  let id := uint64_incr (m_template_id (w_tp w)) in
  let options := {| use_mempool := true;
                    block_reserved_weight :=
                      (2000 + m_coinbase_tx_outputs_size client * 4)%N |} in
  let t := new_block o (S (S tick)) options in
  let prev_hash := hashPrevBlock (getBlockHeader t) in
  let tp := if bool_decide (prev_hash ≠ m_best_prev_hash (w_tp w))
            then set_tip prev_hash (clock o (S (S (S tick)))) (w_tp w)
            else w_tp w in
  {| r_val := Next (Timer_reset (clock o (S (S (S (S (S tick)))))) timer, t);
     r_world :=
       {| w_tp := set_cache (cache_insert id t (m_block_template_cache (w_tp w)))
                    (set_template_id id tp);
          w_clients := <[client_id := send_or_disconnect send client id t true]>
                         (w_clients w) |};
     r_tick := S (S (S (S (S (S (S tick))))));
     r_trace := [CallCreateNewBlock options] |}.
Proof.
  intros Hclient. unfold GetClientById in Hclient.
  unfold initial_template, emit, GetClientById. simpl. rewrite Hclient. simpl.
  destruct (bool_decide _); simpl; rewrite Hclient; reflexivity.
Qed.

Lemma exec_handle_next_some timer t old tmpl tick w client :
  GetClientById client_id w = Some client ->
  exec o (handle_next send client_id timer t old (Some tmpl)) tick w =
  let future := bool_decide (hashPrevBlock (getBlockHeader tmpl) ≠ old) in
  let tp := if future
            then set_tip (hashPrevBlock (getBlockHeader tmpl)) (clock o tick) (w_tp w)
            else w_tp w in
  let id := uint64_incr (m_template_id (w_tp w)) in
  {| r_val := Next (Timer_reset (clock o (S (S tick))) timer, tmpl);
     r_world :=
       {| w_tp := set_cache (cache_insert id tmpl (m_block_template_cache (w_tp w)))
                    (set_template_id id tp);
          w_clients := <[client_id := send_or_disconnect send client id tmpl future]>
                         (w_clients w) |};
     r_tick := S (S (S (S tick)));
     r_trace := [] |}.
Proof.
  intros Hclient. unfold GetClientById in Hclient.
  unfold handle_next, emit, GetClientById. simpl.
  destruct (bool_decide _); simpl; rewrite Hclient; reflexivity.
Qed.

Lemma exec_handle_next_gone timer t old tmpl tick w :
  GetClientById client_id w = None ->
  exec o (handle_next send client_id timer t old (Some tmpl)) tick w =
  let future := bool_decide (hashPrevBlock (getBlockHeader tmpl) ≠ old) in
  let tp := if future
            then set_tip (hashPrevBlock (getBlockHeader tmpl)) (clock o tick) (w_tp w)
            else w_tp w in
  {| r_val := Break;
     r_world := set_tp (set_template_id (uint64_incr (m_template_id (w_tp w))) tp) w;
     r_tick := S (S tick);
     r_trace := [] |}.
Proof.
  intros Hclient. unfold GetClientById in Hclient.
  unfold handle_next, emit, GetClientById. simpl.
  destruct (bool_decide _); simpl; rewrite Hclient; reflexivity.
Qed.

Lemma handle_next_trace timer t old tmpl tick w :
  r_trace (exec o (handle_next send client_id timer t old tmpl) tick w) = [].
Proof.
  destruct tmpl as [tmpl |]; [| done].
  destruct (GetClientById client_id w) as [client |] eqn:Hclient.
  - by rewrite (exec_handle_next_some _ _ _ _ _ Hclient).
  - by rewrite (exec_handle_next_gone _ _ _ _ _ Hclient).
Qed.

Lemma exec_decide_check_fees timer tick w :
  exec o (decide_check_fees m_options timer) tick w =
  if is_test m_options
  then {| r_val := (true, timer); r_world := w; r_tick := tick; r_trace := [] |}
  else {| r_val := Timer_trigger (clock o tick) timer; r_world := w;
          r_tick := S tick; r_trace := [] |}.
Proof. unfold decide_check_fees. by destruct (is_test m_options). Qed.

(** The run of the steady-state part in terms of the run of
    [handle_next], for a watcher whose client is still registered after
    the wait. *)
Lemma exec_steady_state timer t tick w :
  is_Some (GetClientById client_id w) ->
  let ct := exec o (decide_check_fees m_options timer) tick w in
  let options := wait_options m_options (r_val ct).1 in
  let next := exec o (handle_next send client_id (r_val ct).2 t
                        (hashPrevBlock (getBlockHeader t))
                        (next_template o (r_tick ct) t options))
                   (S (S (r_tick ct))) w in
  r_val (exec o (steady_state m_options send client_id timer t) tick w) = r_val next /\
  r_world (exec o (steady_state m_options send client_id timer t) tick w) = r_world next.
Proof.
  intros Hclient. unfold steady_state. rewrite exec_bind.
  assert (Hw : r_world (exec o (decide_check_fees m_options timer) tick w) = w).
  { rewrite exec_decide_check_fees. by destruct (is_test m_options). }
  cbv zeta. simpl. rewrite Hw. rewrite (bool_decide_true _ Hclient). simpl.
  rewrite exec_bind. simpl.
  destruct (r_val (exec o (handle_next _ _ _ _ _ _) _ _)) eqn:Hval; simpl; [done |].
  by destruct (is_test m_options).
Qed.

Lemma steady_state_trace timer t tick w :
  exists rest,
    r_trace (exec o (steady_state m_options send client_id timer t) tick w) =
      CallWaitNext t
        (wait_options m_options
           (r_val (exec o (decide_check_fees m_options timer) tick w)).1) :: rest /\
    (rest = [] \/ rest = [CallSleep 50]).
Proof.
  unfold steady_state. rewrite exec_bind.
  set (ct := exec o (decide_check_fees m_options timer) tick w).
  assert (Hct : r_trace ct = []).
  { unfold ct. rewrite exec_decide_check_fees. by destruct (is_test m_options). }
  rewrite Hct, prepend_nil. cbv zeta. simpl.
  destruct (bool_decide _); simpl.
  - rewrite exec_bind. rewrite handle_next_trace, prepend_nil.
    destruct (r_val (exec o (handle_next _ _ _ _ _ _) _ _)); simpl.
    + eexists. split; [reflexivity | by left].
    + destruct (is_test m_options); simpl;
        (eexists; split; [reflexivity | (by left) || (by right)]).
  - eexists. split; [reflexivity | by left].
Qed.

End WatcherRuns.

(** C7: in a steady-state pass [check_fees] holds exactly when the watcher
    is in test mode or the fee timer has elapsed; the pass calls
    [waitNext] once, on the current template: with [fee_delta] as
    threshold and a timeout of one second in test mode (none otherwise)
    when [check_fees] holds, with [MAX_MONEY] as threshold and
    [fee_check_interval] as timeout when it does not. *)
Theorem steady_state_wait_options `{Collaborators}
    (m_options : Sv2TemplateProviderOptions)
    (send : Sv2Client -> N -> BlockTemplate -> bool -> bool * Sv2Client)
    (client_id : N) (o : Oracle) (timer : Timer) (t : BlockTemplate)
    (tick : nat) (w : World) :
  let elapsed := clock o tick - m_last_triggered timer >=? m_interval timer in
  let check_fees := is_test m_options || elapsed in
  (r_val (exec o (decide_check_fees m_options timer) tick w)).1 = check_fees /\
  exists rest : list Obs,
    r_trace (exec o (steady_state m_options send client_id timer t) tick w) =
      CallWaitNext t
        {| timeout := if check_fees
                      then (if is_test m_options then Some 1000 else None)
                      else Some (1000 * fee_check_interval m_options);
           fee_threshold := if check_fees then fee_delta m_options else MAX_MONEY |}
      :: rest /\
    (rest = [] \/ rest = [CallSleep 50]).
Proof.
  intros elapsed check_fees.
  assert (Hcheck : (r_val (exec o (decide_check_fees m_options timer) tick w)).1 = check_fees).
  { rewrite exec_decide_check_fees. unfold check_fees, elapsed, Timer_trigger.
    destruct (is_test m_options); simpl; [done |].
    by destruct (_ >=? _). }
  split; [exact Hcheck |].
  destruct (steady_state_trace m_options send client_id o timer t tick w)
    as (rest & Htrace & Hrest).
  exists rest. split; [| exact Hrest].
  rewrite Htrace, Hcheck. unfold wait_options.
  by destruct check_fees.
Qed.

(** C8, as stated, fails in the steady-state path. Template [1] on parent
    [7] is out, and [waitNext] returns a template on the new parent [8];
    but the client left the registry during the wait, so the watcher
    leaves its loop at line 261: [m_best_prev_hash] is still [7] and
    [m_last_block_time] still 100, though the clock reads 1000. *)
Lemma tip_change_missed_when_client_gone :
  GetClientById 1 ex_world_client_gone = None /\
  next_template ex_oracle 1 (ex_template 7 0 [])
    (wait_options (H := core_collaborators) ex_options false) = Some (ex_template 8 1 []) /\
  hashPrevBlock (getBlockHeader (ex_template 8 1 [])) <>
    hashPrevBlock (getBlockHeader (ex_template 7 0 [])) /\
  r_trace (exec ex_oracle
             (steady_state (H := core_collaborators) ex_options SendWork 1
                (Timer_new 30 1000) (ex_template 7 0 []))
             0 ex_world_client_gone) =
    [ CallWaitNext (ex_template 7 0 [])
        {| timeout := Some 30000; fee_threshold := 2100000000000000 |} ] /\
  r_val (exec ex_oracle
           (steady_state (H := core_collaborators) ex_options SendWork 1
              (Timer_new 30 1000) (ex_template 7 0 []))
           0 ex_world_client_gone) = Break /\
  m_best_prev_hash
    (w_tp (r_world (exec ex_oracle
                      (steady_state (H := core_collaborators) ex_options SendWork 1
                         (Timer_new 30 1000) (ex_template 7 0 []))
                      0 ex_world_client_gone))) = 7%N /\
  m_last_block_time
    (w_tp (r_world (exec ex_oracle
                      (steady_state (H := core_collaborators) ex_options SendWork 1
                         (Timer_new 30 1000) (ex_template 7 0 []))
                      0 ex_world_client_gone))) = 100.
Proof. repeat split; by vm_compute. Qed.

(** C8 (amended): the initial-template path, which obtains a template only
    for a registered client, sets [m_best_prev_hash] to the new template's
    parent and [m_last_block_time] to the clock exactly when that parent
    differs from [m_best_prev_hash]. A steady-state pass whose client is
    still registered when [waitNext] returns does so exactly when the
    returned template's parent differs from the parent of the template
    waited on; when the parents agree (a fee-only improvement), or nothing
    is returned, both members keep their values. A steady-state pass whose
    client is gone when [waitNext] returns leaves the loop and changes
    nothing, whatever was returned. *)
Theorem tip_change_updates `{Collaborators}
    (m_options : Sv2TemplateProviderOptions)
    (send : Sv2Client -> N -> BlockTemplate -> bool -> bool * Sv2Client)
    (client_id : N) (o : Oracle) (timer : Timer) (tick : nat) (w : World) :
  (forall client : Sv2Client,
     GetClientById client_id w = Some client ->
     let t := new_block o (S (S tick))
                {| use_mempool := true;
                   block_reserved_weight :=
                     (2000 + m_coinbase_tx_outputs_size client * 4)%N |} in
     let tp' := w_tp (r_world (exec o (initial_template send client_id timer) tick w)) in
     (hashPrevBlock (getBlockHeader t) <> m_best_prev_hash (w_tp w) ->
      m_best_prev_hash tp' = hashPrevBlock (getBlockHeader t) /\
      m_last_block_time tp' = clock o (S (S (S tick)))) /\
     (hashPrevBlock (getBlockHeader t) = m_best_prev_hash (w_tp w) ->
      m_best_prev_hash tp' = m_best_prev_hash (w_tp w) /\
      m_last_block_time tp' = m_last_block_time (w_tp w))) /\
  (GetClientById client_id w = None ->
   let r := exec o (initial_template send client_id timer) tick w in
   r_val r = Break /\
   r_trace r = [] /\
   m_best_prev_hash (w_tp (r_world r)) = m_best_prev_hash (w_tp w) /\
   m_last_block_time (w_tp (r_world r)) = m_last_block_time (w_tp w)) /\
  (forall t : BlockTemplate,
     is_Some (GetClientById client_id w) ->
     let check_fees :=
       is_test m_options || (clock o tick - m_last_triggered timer >=? m_interval timer) in
     let asked := if is_test m_options then tick else S tick in
     let tmpl := next_template o asked t (wait_options m_options check_fees) in
     let tp' := w_tp (r_world (exec o (steady_state m_options send client_id timer t)
                                 tick w)) in
     (forall new : BlockTemplate,
        tmpl = Some new ->
        hashPrevBlock (getBlockHeader new) <> hashPrevBlock (getBlockHeader t) ->
        m_best_prev_hash tp' = hashPrevBlock (getBlockHeader new) /\
        m_last_block_time tp' = clock o (S (S asked))) /\
     (forall new : BlockTemplate,
        tmpl = Some new ->
        hashPrevBlock (getBlockHeader new) = hashPrevBlock (getBlockHeader t) ->
        m_best_prev_hash tp' = m_best_prev_hash (w_tp w) /\
        m_last_block_time tp' = m_last_block_time (w_tp w)) /\
     (tmpl = None ->
      m_best_prev_hash tp' = m_best_prev_hash (w_tp w) /\
      m_last_block_time tp' = m_last_block_time (w_tp w))) /\
  (forall t : BlockTemplate,
     GetClientById client_id w = None ->
     r_val (exec o (steady_state m_options send client_id timer t) tick w) = Break /\
     r_world (exec o (steady_state m_options send client_id timer t) tick w) = w).
Proof.
  split; [| split; [| split]].
  - intros client Hclient t tp'. unfold tp', t.
    rewrite (exec_initial_template send o timer tick Hclient). simpl. split.
    + intros Hnew. by rewrite bool_decide_true.
    + intros Hsame. rewrite bool_decide_false; [done |]. by intros ?.
  - intros Hgone. cbv zeta.
    by rewrite (exec_initial_template_gone send o timer tick Hgone).
  - intros t Hpresent check_fees asked tmpl tp'.
    destruct (exec_steady_state m_options send o timer t tick Hpresent) as [_ Hworld].
    assert (Hct : exec o (decide_check_fees m_options timer) tick w =
                  {| r_val := (check_fees,
                               (r_val (exec o (decide_check_fees m_options timer) tick w)).2);
                     r_world := w; r_tick := asked; r_trace := [] |}).
    { rewrite exec_decide_check_fees. unfold check_fees, asked, Timer_trigger.
      destruct (is_test m_options); simpl; [done |]. by destruct (_ >=? _). }
    unfold tp'. rewrite Hworld. clear Hworld. rewrite Hct. simpl. fold tmpl.
    destruct Hpresent as [client Hclient].
    split; [| split].
    + intros new -> Hnew.
      rewrite (exec_handle_next_some send o _ t _ new _ Hclient). simpl.
      by rewrite bool_decide_true.
    + intros new -> Hsame.
      rewrite (exec_handle_next_some send o _ t _ new _ Hclient). simpl.
      rewrite bool_decide_false; [done |]. by intros ?.
    + by intros ->.
  - intros t Hgone. unfold steady_state. rewrite exec_bind, exec_decide_check_fees.
    assert (Hb : bool_decide (is_Some (GetClientById client_id w)) = false).
    { apply bool_decide_false. rewrite Hgone. by intros [? ?]. }
    destruct (is_test m_options); simpl; by rewrite Hb.
Qed.

(** C6 at its failing input: two watchers wake on the same new tip. Each
    increments [m_template_id] in its own critical section (3, then 4);
    each then reads the counter again when it emits and when it inserts.
    Both clients are sent id [4], for different templates; the cache
    holds the first watcher's template under [4], the second watcher's
    template is not stored, and id [3] is never used. *)
Theorem template_id_shared_by_two_watchers :
  m_send_messages <$>
    w_clients (run_schedule ex_oracle ex_schedule 0 ex_pool ex_world).2 !! 1%N =
    Some [ Sv2NewTemplateMsg (ex_header 7 0) (ex_tx 0 []) [] 0 1 true;
           Sv2SetNewPrevHashMsg (ex_header 7 0) 1;
           Sv2NewTemplateMsg (ex_header 8 10) (ex_tx 0 []) [] 0 4 true;
           Sv2SetNewPrevHashMsg (ex_header 8 10) 4 ] /\
  m_send_messages <$>
    w_clients (run_schedule ex_oracle ex_schedule 0 ex_pool ex_world).2 !! 2%N =
    Some [ Sv2NewTemplateMsg (ex_header 7 0) (ex_tx 0 []) [] 0 2 true;
           Sv2SetNewPrevHashMsg (ex_header 7 0) 2;
           Sv2NewTemplateMsg (ex_header 8 22) (ex_tx 0 []) [] 0 4 true;
           Sv2SetNewPrevHashMsg (ex_header 8 22) 4 ] /\
  m_block_template_cache
    (w_tp (run_schedule ex_oracle ex_schedule 0 ex_pool ex_world).2) !! 4%N =
    Some (ex_template 8 10 []) /\
  m_block_template_cache
    (w_tp (run_schedule ex_oracle ex_schedule 0 ex_pool ex_world).2) !! 3%N = None /\
  m_template_id (w_tp (run_schedule ex_oracle ex_schedule 0 ex_pool ex_world).2) = 4%N.
Proof. repeat split; by vm_compute. Qed.

(** ** Supervisor *)

Lemma exec_wait_for_ibd_signet (o : Oracle) (fuel : nat) (tick : nat) (w : World) :
  exec o (wait_for_ibd SIGNET (S fuel)) tick w =
  {| r_val := Finished; r_world := w; r_tick := S tick; r_trace := [] |}.
Proof. simpl. by destruct (interrupt o tick). Qed.

Lemma exec_wait_for_ibd (chain : ChainType) (o : Oracle) (n : nat) :
  chain <> SIGNET ->
  forall (fuel tick : nat) (w : World),
  (forall j, (j < n)%nat ->
     interrupt o (tick + 3 * j)%nat = false /\ in_ibd o (S (tick + 3 * j)) = true) ->
  interrupt o (tick + 3 * n)%nat = true \/ in_ibd o (S (tick + 3 * n)) = false ->
  (n < fuel)%nat ->
  exec o (wait_for_ibd chain fuel) tick w =
  {| r_val := Finished;
     r_world := w;
     r_tick := if interrupt o (tick + 3 * n)%nat
               then S (tick + 3 * n) else S (S (tick + 3 * n));
     r_trace := ibd_polls n ++
                if interrupt o (tick + 3 * n)%nat then [] else [CallIsInitialBlockDownload] |}.
Proof.
  intros Hchain. induction n as [| n IH]; intros fuel tick w Hwait Hexit Hfuel.
  - destruct fuel as [| fuel]; [lia |].
    replace (tick + 3 * 0)%nat with tick in * by lia.
    cbn [wait_for_ibd bind call exec handle prepend].
    rewrite (bool_decide_false _ Hchain).
    destruct (interrupt o tick) eqn:Hstop; simpl; [done |].
    destruct Hexit as [? | Hibd]; [done |]. by rewrite Hibd.
  - destruct fuel as [| fuel]; [lia |].
    destruct (Hwait 0%nat ltac:(lia)) as [Hstop Hibd].
    replace (tick + 3 * 0)%nat with tick in * by lia.
    cbn [wait_for_ibd bind call exec handle prepend].
    rewrite (bool_decide_false _ Hchain), Hstop. simpl. rewrite Hibd. simpl.
    rewrite (IH fuel (S (S (S tick))) w).
    + replace (S (S (S tick)) + 3 * n)%nat with (tick + 3 * S n)%nat by lia.
      reflexivity.
    + intros j Hj. destruct (Hwait (S j) ltac:(lia)) as [? ?].
      replace (S (S (S tick)) + 3 * j)%nat with (tick + 3 * S j)%nat by lia. done.
    + replace (S (S (S tick)) + 3 * n)%nat with (tick + 3 * S n)%nat by lia. done.
    + lia.
Qed.

(** C9: the supervisor first calls [waitTipChanged] with the zero hash.
    When that returns nothing it ends at once: nothing is spawned, no
    other call is made and the shared state is as before. Otherwise it
    goes on from the state in which [m_last_block_time] is the reading of
    the clock and every other member and the registry are as they were,
    with the poll loop, whose calls come first.
    On signet the loop makes no poll. On any other chain it polls
    [isInitialBlockDownload], sleeping 1000 ms after each poll that
    answers [true], and leaves at the first round in which the interrupt
    flag is set or the poll answers [false]; the loop leaves the shared
    state as it found it. *)
Theorem ThreadSv2Handler_startup (chain : ChainType) (o : Oracle)
    (fuel_ibd fuel_main tick : nat) (w : World) :
  (tip_changed o tick uint256_ZERO = None ->
   exec o (ThreadSv2Handler chain fuel_ibd fuel_main) tick w =
   {| r_val := Finished; r_world := w; r_tick := S tick;
      r_trace := [CallWaitTipChanged uint256_ZERO] |}) /\
  (is_Some (tip_changed o tick uint256_ZERO) ->
   exec o (ThreadSv2Handler chain fuel_ibd fuel_main) tick w =
   prepend [CallWaitTipChanged uint256_ZERO]
     (exec o (wait_then_serve chain fuel_ibd fuel_main) (S (S tick))
        {| w_tp := {| m_best_prev_hash := m_best_prev_hash (w_tp w);
                      m_last_block_time := clock o (S tick);
                      m_template_id := m_template_id (w_tp w);
                      m_block_template_cache := m_block_template_cache (w_tp w) |};
           w_clients := w_clients w |})) /\
  (forall (t0 : nat) (w0 : World),
     exists rest : list Obs,
       r_trace (exec o (wait_then_serve chain fuel_ibd fuel_main) t0 w0) =
         r_trace (exec o (wait_for_ibd chain fuel_ibd) t0 w0) ++ rest) /\
  (chain = SIGNET ->
   forall (fuel t0 : nat) (w0 : World),
     exec o (wait_for_ibd chain (S fuel)) t0 w0 =
     {| r_val := Finished; r_world := w0; r_tick := S t0; r_trace := [] |}) /\
  (chain <> SIGNET ->
   forall (n fuel t0 : nat) (w0 : World),
     (forall j, (j < n)%nat ->
        interrupt o (t0 + 3 * j)%nat = false /\ in_ibd o (S (t0 + 3 * j)) = true) ->
     interrupt o (t0 + 3 * n)%nat = true \/ in_ibd o (S (t0 + 3 * n)) = false ->
     (n < fuel)%nat ->
     exec o (wait_for_ibd chain fuel) t0 w0 =
     {| r_val := Finished;
        r_world := w0;
        r_tick := if interrupt o (t0 + 3 * n)%nat
                  then S (t0 + 3 * n) else S (S (t0 + 3 * n));
        r_trace := ibd_polls n ++
                   if interrupt o (t0 + 3 * n)%nat
                   then [] else [CallIsInitialBlockDownload] |}).
Proof.
  split; [| split; [| split; [| split]]].
  - intros Htip. unfold ThreadSv2Handler. simpl. by rewrite Htip.
  - intros [h Htip]. unfold ThreadSv2Handler. simpl. by rewrite Htip.
  - intros t0 w0. unfold wait_then_serve. rewrite exec_bind. simpl. by eexists.
  - intros -> fuel t0 w0. apply exec_wait_for_ibd_signet.
  - intros Hchain n fuel t0 w0. by apply exec_wait_for_ibd.
Qed.

(** ** The theorems at concrete inputs *)


Lemma RequestTransactionData_success_witness :
  r_val (exec ex_oracle
           (RequestTransactionData (H := core_collaborators) (ex_client 1)
              {| m_template_id_req := 2 |}) 0 ex_world_after_tip) =
    Some {| m_id := 1%N;
            m_coinbase_output_constraints_recv := true;
            m_coinbase_tx_outputs_size := 1%N;
            m_disconnect_flag := false;
            m_send_messages :=
              [Sv2RequestTransactionDataSuccessMsg 2 [Byte.x01; Byte.x02; Byte.x03]
                 [ex_tx 1 []; ex_tx 2 []]] |}.
Proof.
  refine (proj1 (@RequestTransactionData_success core_collaborators ex_oracle 0%nat
                   ex_world_after_tip (ex_client 1) {| m_template_id_req := 2 |}
                   (ex_template 8 0 [[Byte.x01; Byte.x02; Byte.x03]])
                   (ex_tx 0 [[Byte.x01; Byte.x02; Byte.x03]])
                   [ex_tx 1 []; ex_tx 2 []]
                   {| scriptWitness := {| stack := [[Byte.x01; Byte.x02; Byte.x03]] |} |} []
                   [Byte.x01; Byte.x02; Byte.x03] _ _ _ _ _)).
  - by vm_compute.
  - reflexivity.
  - reflexivity.
  - reflexivity.
  - reflexivity.
Defined.

Lemma RequestTransactionData_in_bounds_witness :
  is_Some (r_val (exec ex_oracle
                    (RequestTransactionData (H := core_collaborators) (ex_client 1)
                       {| m_template_id_req := 2 |}) 0 ex_world_after_tip)) /\
  (0 <? length (vtx (getBlock (ex_template 8 0 [[Byte.x01; Byte.x02; Byte.x03]]))))%nat = true.
Proof.
  split.
  - refine (proj2 (proj1 (@RequestTransactionData_in_bounds core_collaborators ex_oracle
                            0%nat ex_world_after_tip (ex_client 1)
                            {| m_template_id_req := 2 |})
                     (ex_template 8 0 [[Byte.x01; Byte.x02; Byte.x03]]) _ _) _).
    + by vm_compute.
    + reflexivity.
    + reflexivity.
  - refine (proj1 (proj2 (@RequestTransactionData_in_bounds core_collaborators ex_oracle
                            0%nat ex_world_after_tip (ex_client 1)
                            {| m_template_id_req := 2 |}))
              (getBlock (ex_template 8 0 [[Byte.x01; Byte.x02; Byte.x03]])) _).
    reflexivity.
Defined.

Lemma tip_change_updates_witness :
  (m_best_prev_hash
     (w_tp (r_world (exec ex_oracle (initial_template SendWork 1 (Timer_new 30 1000))
                       0 ex_world))) = 7%N /\
   m_last_block_time
     (w_tp (r_world (exec ex_oracle (initial_template SendWork 1 (Timer_new 30 1000))
                       0 ex_world))) = 1000) /\
  (m_best_prev_hash
     (w_tp (r_world (exec ex_oracle
                       (steady_state (H := core_collaborators) ex_options SendWork 2
                          (Timer_new 30 1000) (ex_template 7 0 []))
                       0 ex_world_client_gone))) = 8%N /\
   m_last_block_time
     (w_tp (r_world (exec ex_oracle
                       (steady_state (H := core_collaborators) ex_options SendWork 2
                          (Timer_new 30 1000) (ex_template 7 0 []))
                       0 ex_world_client_gone))) = 1000) /\
  (m_best_prev_hash
     (w_tp (r_world (exec ex_oracle_fees
                       (steady_state (H := core_collaborators) ex_options SendWork 2
                          (Timer_new 30 1000) (ex_template 7 0 []))
                       0 ex_world_client_gone))) = 7%N /\
   m_last_block_time
     (w_tp (r_world (exec ex_oracle_fees
                       (steady_state (H := core_collaborators) ex_options SendWork 2
                          (Timer_new 30 1000) (ex_template 7 0 []))
                       0 ex_world_client_gone))) = 100) /\
  (r_val (exec ex_oracle
            (steady_state (H := core_collaborators) ex_options SendWork 1
               (Timer_new 30 1000) (ex_template 7 0 []))
            0 ex_world_client_gone) = Break /\
   r_world (exec ex_oracle
              (steady_state (H := core_collaborators) ex_options SendWork 1
                 (Timer_new 30 1000) (ex_template 7 0 []))
              0 ex_world_client_gone) = ex_world_client_gone).
Proof.
  split; [| split; [| split]].
  - refine (proj1 (proj1 (@tip_change_updates core_collaborators ex_options SendWork 1%N
                            ex_oracle (Timer_new 30 1000) 0%nat ex_world)
                     (ex_client 1) _) _).
    + by vm_compute.
    + by vm_compute.
  - refine (proj1 (proj1 (proj2 (proj2
              (@tip_change_updates core_collaborators ex_options SendWork 2%N
                 ex_oracle (Timer_new 30 1000) 0%nat ex_world_client_gone)))
              (ex_template 7 0 []) _) (ex_template 8 1 []) _ _).
    + by eexists.
    + reflexivity.
    + by vm_compute.
  - refine (proj1 (proj2 (proj1 (proj2 (proj2
              (@tip_change_updates core_collaborators ex_options SendWork 2%N
                 ex_oracle_fees (Timer_new 30 1000) 0%nat ex_world_client_gone)))
              (ex_template 7 0 []) _)) (ex_template 7 1 []) _ _).
    + by eexists.
    + reflexivity.
    + reflexivity.
  - refine (proj2 (proj2 (proj2
              (@tip_change_updates core_collaborators ex_options SendWork 1%N
                 ex_oracle (Timer_new 30 1000) 0%nat ex_world_client_gone)))
              (ex_template 7 0 []) _).
    by vm_compute.
Defined.

Lemma ThreadSv2Handler_startup_witness :
  exec ex_oracle_shutdown (ThreadSv2Handler MAIN 5 5) 0 ex_world =
    {| r_val := Finished; r_world := ex_world; r_tick := 1;
       r_trace := [CallWaitTipChanged uint256_ZERO] |} /\
  exec ex_oracle_ibd (ThreadSv2Handler MAIN 5 1) 0 ex_world =
    prepend [CallWaitTipChanged uint256_ZERO]
      (exec ex_oracle_ibd (wait_then_serve MAIN 5 1) 2
         {| w_tp := {| m_best_prev_hash := 0%N; m_last_block_time := 1000;
                       m_template_id := 0%N; m_block_template_cache := ∅ |};
            w_clients := w_clients ex_world |}) /\
  exec ex_oracle_ibd (wait_for_ibd MAIN 5) 2 ex_world =
    {| r_val := Finished; r_world := ex_world; r_tick := 10;
       r_trace := [ CallIsInitialBlockDownload; CallSleep 1000;
                    CallIsInitialBlockDownload; CallSleep 1000;
                    CallIsInitialBlockDownload ] |}.
Proof.
  split; [| split].
  - refine (proj1 (ThreadSv2Handler_startup MAIN ex_oracle_shutdown 5 5 0 ex_world) _).
    reflexivity.
  - refine (proj1 (proj2 (ThreadSv2Handler_startup MAIN ex_oracle_ibd 5 1 0 ex_world)) _).
    by eexists.
  - refine (proj2 (proj2 (proj2 (proj2
              (ThreadSv2Handler_startup MAIN ex_oracle_ibd 5 5 0 ex_world))))
              _ 2%nat 5%nat 2%nat ex_world _ _ _).
    + discriminate.
    + intros j Hj. assert (j = 0 \/ j = 1)%nat as [-> | ->] by lia; by vm_compute.
    + right. reflexivity.
    + lia.
Defined.

(** ** Scenarios *)

(** A watcher alone, one pass: the first template goes out as
    [NewTemplate] 1 with [SetNewPrevHash] 1; the template on the new tip
    as [NewTemplate] 2 with [SetNewPrevHash] 2. Both are cached, and the
    tip members follow. *)
Example scenario_initial_then_new_tip :
  m_send_messages <$>
    w_clients (r_world (exec ex_oracle
                          (ThreadSv2ClientHandler (H := core_collaborators) ex_options 1 1)
                          0 ex_world)) !! 1%N =
    Some [ Sv2NewTemplateMsg (ex_header 7 0) (ex_tx 0 []) [] 0 1 true;
           Sv2SetNewPrevHashMsg (ex_header 7 0) 1;
           Sv2NewTemplateMsg (ex_header 8 10) (ex_tx 0 []) [] 0 2 true;
           Sv2SetNewPrevHashMsg (ex_header 8 10) 2 ] /\
  m_best_prev_hash
    (w_tp (r_world (exec ex_oracle
                      (ThreadSv2ClientHandler (H := core_collaborators) ex_options 1 1)
                      0 ex_world))) = 8%N /\
  m_last_block_time
    (w_tp (r_world (exec ex_oracle
                      (ThreadSv2ClientHandler (H := core_collaborators) ex_options 1 1)
                      0 ex_world))) = 1000 /\
  m_block_template_cache
    (w_tp (r_world (exec ex_oracle
                      (ThreadSv2ClientHandler (H := core_collaborators) ex_options 1 1)
                      0 ex_world))) !! 1%N = Some (ex_template 7 0 []) /\
  m_block_template_cache
    (w_tp (r_world (exec ex_oracle
                      (ThreadSv2ClientHandler (H := core_collaborators) ex_options 1 1)
                      0 ex_world))) !! 2%N = Some (ex_template 8 10 []).
Proof. repeat split; by vm_compute. Qed.

(** A fee-only improvement after the fee timer elapsed: [waitNext] is
    asked with [fee_delta] and no timeout, and the answer goes out as
    [NewTemplate] 2 without [SetNewPrevHash]. *)
Example scenario_fee_only :
  m_send_messages <$>
    w_clients (r_world (exec ex_oracle_fees
                          (ThreadSv2ClientHandler (H := core_collaborators) ex_options 1 1)
                          0 ex_world)) !! 1%N =
    Some [ Sv2NewTemplateMsg (ex_header 7 0) (ex_tx 0 []) [] 0 1 true;
           Sv2SetNewPrevHashMsg (ex_header 7 0) 1;
           Sv2NewTemplateMsg (ex_header 7 10) (ex_tx 0 []) [] 0 2 false ] /\
  r_trace (exec ex_oracle_fees
             (ThreadSv2ClientHandler (H := core_collaborators) ex_options 1 1)
             0 ex_world) =
    [ CallCreateNewBlock {| use_mempool := true; block_reserved_weight := 2004 |};
      CallWaitNext (ex_template 7 0 []) {| timeout := None; fee_threshold := 1000 |} ].
Proof. split; by vm_compute. Qed.

(** More than ten seconds after the tip change the template on the old
    parent is pruned, and a request for it is answered "not found". *)
Example scenario_prune_then_not_found :
  m_send_messages <$>
    r_val (exec ex_oracle
             (with_tp (fun now tp => (tt, PruneBlockTemplateCache now tp)) ;;;
              RequestTransactionData (H := core_collaborators) (ex_client 1)
                {| m_template_id_req := 1 |})%prog
             0 ex_world_after_tip) =
    Some [ Sv2RequestTransactionDataErrorMsg 1 "template-id-not-found" ].
Proof. by vm_compute. Qed.

(** * Further properties *)

#[local] Set Warnings "-clear-no-such-hyp".

(** ** The certificate *)

(** X1: the certificate the constructor signs is valid from a 32-bit time
    not after its last valid time, and that last time is not before the
    time of creation. [valid_from] is one hour before the time of
    creation when that time, cast to [uint32_t], is at least 3600; below
    that the subtraction wraps and [valid_from] lies after the time of
    creation. *)
Theorem certificate_covers_creation (now : Z) :
  0 <= certificate_valid_from now <= certificate_valid_to /\
  uint32_of now <= certificate_valid_to /\
  (3600 <= uint32_of now ->
   certificate_valid_from now = uint32_of now - 3600) /\
  (uint32_of now < 3600 ->
   certificate_valid_from now = uint32_of now + (2 ^ 32 - 3600) /\
   uint32_of now < certificate_valid_from now).
Proof.
  unfold certificate_valid_from, certificate_valid_to, uint32_of.
  pose proof (Z.mod_pos_bound now (2 ^ 32) ltac:(lia)) as Hnow.
  pose proof (Z.mod_pos_bound (now mod 2 ^ 32 - 3600) (2 ^ 32) ltac:(lia)) as Hfrom.
  split; [lia |]. split; [lia |]. split.
  - intros Hlate. apply Z.mod_small. lia.
  - intros Hearly.
    assert ((now mod 2 ^ 32 - 3600) mod 2 ^ 32 = now mod 2 ^ 32 + (2 ^ 32 - 3600)) as ->.
    { symmetry. apply (Z.mod_unique_pos _ _ (-1)); lia. }
    lia.
Qed.

Lemma certificate_covers_creation_witness :
  3600 <= uint32_of 1700000000 /\
  certificate_valid_from 1700000000 = uint32_of 1700000000 - 3600.
Proof.
  split; [by vm_compute |].
  refine (proj1 (proj2 (proj2 (certificate_covers_creation 1700000000))) _).
  by vm_compute.
Defined.

(** ** The fee timer *)


Lemma Timer_fired_first (times : list Z) :
  forall (t : Timer) (b : Z),
    Timer_fired times t !! 0%nat = Some b ->
    b - m_last_triggered t >= m_interval t.
Proof.
  induction times as [| now times IH]; intros t b Hb; [done |].
  simpl in Hb. unfold Timer_trigger in Hb.
  destruct (now - m_last_triggered t >=? m_interval t) eqn:Hfire.
  - simpl in Hb. injection Hb as <-. lia.
  - by apply IH.
Qed.

Lemma Timer_fired_next (times : list Z) :
  forall (t : Timer) (k : nat) (a b : Z),
    Timer_fired times t !! k = Some a ->
    Timer_fired times t !! S k = Some b ->
    b - a >= m_interval t.
Proof.
  induction times as [| now times IH]; intros t k a b Ha Hb; [done |].
  simpl in Ha, Hb. unfold Timer_trigger in Ha, Hb.
  destruct (now - m_last_triggered t >=? m_interval t) eqn:Hfire.
  - destruct k as [| k]; simpl in Ha, Hb.
    + injection Ha as <-. by apply (Timer_fired_first Hb).
    + by apply (IH (Timer_reset now t) k).
  - by apply (IH t k).
Qed.

(** X2: whatever the times at which [Timer::trigger] is called, the first
    call that answers true comes at least [m_interval] after the last
    reset, and two successive calls that answer true are at least
    [m_interval] apart. *)
Theorem Timer_trigger_pacing (times : list Z) (t : Timer) :
  (forall b : Z,
     Timer_fired times t !! 0%nat = Some b ->
     b - m_last_triggered t >= m_interval t) /\
  (forall (k : nat) (a b : Z),
     Timer_fired times t !! k = Some a ->
     Timer_fired times t !! S k = Some b ->
     b - a >= m_interval t).
Proof.
  split.
  - apply Timer_fired_first.
  - apply Timer_fired_next.
Qed.

Lemma Timer_trigger_pacing_witness :
  Timer_fired [5; 30; 31; 59; 70] (Timer_new 30 0) = [30; 70] /\
  70 - 30 >= m_interval (Timer_new 30 0).
Proof.
  split; [reflexivity |].
  refine (proj2 (Timer_trigger_pacing [5; 30; 31; 59; 70] (Timer_new 30 0)) 0%nat 30 70 _ _);
    reflexivity.
Defined.

(** ** Pruning *)

Lemma PruneBlockTemplateCache_pruned (now : Z) (tp : TP) :
  m_last_block_time tp <= now - 10 ->
  PruneBlockTemplateCache now tp =
  set_cache (filter (on_tip (m_best_prev_hash tp)) (m_block_template_cache tp)) tp.
Proof.
  intros Hold. unfold PruneBlockTemplateCache.
  destruct (Z.gtb_spec (m_last_block_time tp) (now - 10)); [lia | done].
Qed.

Lemma PruneBlockTemplateCache_kept (now : Z) (tp : TP) :
  now - 10 < m_last_block_time tp ->
  PruneBlockTemplateCache now tp = tp.
Proof.
  intros Hrecent. unfold PruneBlockTemplateCache.
  destruct (Z.gtb_spec (m_last_block_time tp) (now - 10)); [done | lia].
Qed.

(** X3: pruning, and pruning again at the same or a later time, leaves the
    provider as one pruning at the later time leaves it. *)
Theorem PruneBlockTemplateCache_again (now1 now2 : Z) (tp : TP) :
  now1 <= now2 ->
  PruneBlockTemplateCache now2 (PruneBlockTemplateCache now1 tp) =
  PruneBlockTemplateCache now2 tp.
Proof.
  intros Hlater.
  destruct (Z.le_gt_cases (m_last_block_time tp) (now1 - 10)) as [Hold | Hrecent].
  - rewrite (PruneBlockTemplateCache_pruned Hold).
    rewrite !PruneBlockTemplateCache_pruned by (simpl; lia).
    unfold set_cache. simpl. f_equal.
    apply map_eq. intros id. apply option_eq. intros t.
    rewrite !map_lookup_filter_Some. tauto.
  - by rewrite (@PruneBlockTemplateCache_kept now1 tp) by lia.
Qed.

Lemma PruneBlockTemplateCache_again_witness :
  PruneBlockTemplateCache 120
    (PruneBlockTemplateCache 110 (ex_tp 8 100 1 {[ 1%N := ex_template 7 0 [] ]})) =
  PruneBlockTemplateCache 120 (ex_tp 8 100 1 {[ 1%N := ex_template 7 0 [] ]}).
Proof.
  apply (@PruneBlockTemplateCache_again 110 120). lia.
Defined.

(** ** Transaction-data queries *)

(** X4: a request for transaction data changes nothing in the provider.
    When it returns, the client's queue has
    grown by exactly one message, a [RequestTransactionData.Success] or an
    [Error] with one of the two reasons, carrying the requested id, and the
    client's id and disconnect flag are as before. It does not return only
    when the template is cached and its block is indexed out of bounds. *)
Theorem RequestTransactionData_one_answer `{Collaborators} (o : Oracle) (tick : nat)
    (w : World) (client : Sv2Client) (msg : Sv2RequestTransactionDataMsg) :
  r_world (exec o (RequestTransactionData client msg) tick w) = w /\
  match r_val (exec o (RequestTransactionData client msg) tick w) with
  | Some client' =>
      exists answer : Sv2NetMsg,
        answers (m_template_id_req msg) answer = true /\
        m_send_messages client' = m_send_messages client ++ [answer] /\
        m_disconnect_flag client' = m_disconnect_flag client /\
        m_id client' = m_id client
  | None =>
      exists t : BlockTemplate,
        m_block_template_cache (w_tp w) !! m_template_id_req msg = Some t /\
        coinbase_in_bounds (getBlock t) = false
  end.
Proof.
  destruct (m_block_template_cache (w_tp w) !! m_template_id_req msg) as [t |] eqn:Hsome.
  - destruct (decide (hashPrevBlock (block_header (getBlock t)) = m_best_prev_hash (w_tp w)))
      as [Htip | Hstale].
    + rewrite (RequestTransactionData_run_fresh _ _ _ Hsome Htip). simpl.
      split; [done |].
      destruct (transaction_data (m_template_id_req msg) (getBlock t)) as [answer |] eqn:Hdata;
        simpl.
      * exists answer. repeat split; try done.
        unfold transaction_data in Hdata.
        destruct (vtx (getBlock t) !! 0%nat) as [coinbase |]; [| done]. simpl in Hdata.
        destruct (vin coinbase !! 0%nat) as [input |]; [| done]. simpl in Hdata.
        destruct (if negb (IsNull (scriptWitness input)) then _ else _); [| done].
        simpl in Hdata. injection Hdata as <-. simpl. by rewrite bool_decide_true.
      * exists t. split; [done |].
        destruct (coinbase_in_bounds (getBlock t)) eqn:Hin; [| done].
        apply transaction_data_in_bounds with (template_id := m_template_id_req msg) in Hin.
        rewrite Hdata in Hin. by destruct Hin.
    + rewrite (RequestTransactionData_run_stale _ _ _ Hsome Hstale). simpl.
      split; [done |]. eexists. repeat split; try done.
      simpl. rewrite bool_decide_true by done. done.
  - rewrite (RequestTransactionData_run_absent _ _ _ Hsome). simpl.
    split; [done |]. eexists. repeat split; try done.
    simpl. rewrite bool_decide_true by done. done.
Qed.

(** ** Pruning, then a query *)

(** X5: once ten seconds have passed since the last tip change and the
    cache has been pruned, no request is answered with
    "stale-template-id", provided the block of every cached template
    carries the header the template reports. *)
Theorem RequestTransactionData_after_prune `{Collaborators} (o : Oracle) (tick : nat)
    (now : Z) (w : World) (client : Sv2Client) (msg : Sv2RequestTransactionDataMsg) :
  10 <= now - m_last_block_time (w_tp w) ->
  (forall (id : N) (t : BlockTemplate),
     m_block_template_cache (w_tp w) !! id = Some t ->
     block_header (getBlock t) = getBlockHeader t) ->
  r_val (exec o (RequestTransactionData client msg) tick
           (set_tp (PruneBlockTemplateCache now (w_tp w)) w)) <>
  Some (emplace_back
          (Sv2RequestTransactionDataErrorMsg (m_template_id_req msg) "stale-template-id")
          client).
Proof.
  intros Hold Hsame.
  rewrite (@PruneBlockTemplateCache_pruned now (w_tp w)) by lia.
  set (w' := set_tp _ w).
  destruct (m_block_template_cache (w_tp w') !! m_template_id_req msg) as [t |] eqn:Hsome.
  - pose proof Hsome as Hkept. unfold w' in Hkept. simpl in Hkept.
    apply map_lookup_filter_Some in Hkept. destruct Hkept as [Hin Htip].
    unfold on_tip in Htip. simpl in Htip.
    assert (Hfresh : hashPrevBlock (block_header (getBlock t)) = m_best_prev_hash (w_tp w')).
    { rewrite (Hsame _ _ Hin). exact Htip. }
    rewrite (RequestTransactionData_run_fresh _ _ _ Hsome Hfresh). simpl.
    destruct (transaction_data _ _) as [answer |] eqn:Hdata; simpl; [| done].
    intros Heq. injection Heq as Heq.
    apply app_inv_head in Heq. injection Heq as ->.
    unfold transaction_data in Hdata.
    destruct (vtx (getBlock t) !! 0%nat) as [coinbase |]; [| done]. simpl in Hdata.
    destruct (vin coinbase !! 0%nat) as [input |]; [| done]. simpl in Hdata.
    destruct (if negb (IsNull (scriptWitness input)) then _ else _); done.
  - rewrite (RequestTransactionData_run_absent _ _ _ Hsome). simpl.
    intros Heq. injection Heq as Heq.
    apply app_inv_head in Heq. by injection Heq.
Qed.

Lemma RequestTransactionData_after_prune_witness :
  r_val (exec ex_oracle
           (RequestTransactionData (H := core_collaborators) (ex_client 1)
              {| m_template_id_req := 1 |}) 0
           (set_tp (PruneBlockTemplateCache 110 (w_tp ex_world_after_tip))
              ex_world_after_tip)) <>
  Some (emplace_back (Sv2RequestTransactionDataErrorMsg 1 "stale-template-id")
          (ex_client 1)).
Proof.
  refine (@RequestTransactionData_after_prune core_collaborators ex_oracle 0%nat 110
            ex_world_after_tip (ex_client 1) {| m_template_id_req := 1 |} _ _).
  - simpl. lia.
  - intros id t Hin. unfold ex_world_after_tip in Hin. simpl in Hin.
    apply lookup_insert_Some in Hin as [[_ <-] | [_ Hin]]; [reflexivity |].
    apply lookup_singleton_Some in Hin as [_ <-]. reflexivity.
Defined.

(** ** Invariants of every action *)

Section KeepsRules.
Variable I : World -> Prop.

Lemma Keeps_bind {A B : Type} (p : Prog A) (f : A -> Prog B) :
  Keeps I p -> (forall a, Keeps I (f a)) -> Keeps I (bind p f).
Proof.
  intros Hp Hf. induction p as [a | X e k IH]; simpl; [apply Hf |].
  destruct Hp as [He Hk]. split; [exact He |]. intros x. apply IH, Hk.
Qed.

Lemma Keeps_atomic {X : Type} (f : Z -> World -> X * World) :
  (forall now w, I w -> I (f now w).2) -> Keeps I (call (Atomic f)).
Proof.
  intros Hf. simpl. split; [| done].
  intros o tick w Hw. simpl. specialize (Hf (clock o tick) w Hw).
  by destruct (f (clock o tick) w).
Qed.

Lemma Keeps_with_tp {X : Type} (f : Z -> TP -> X * TP) :
  (forall now w, I w -> I (set_tp (f now (w_tp w)).2 w)) -> Keeps I (with_tp f).
Proof.
  intros Hf. apply Keeps_atomic. intros now w Hw. specialize (Hf now w Hw).
  by destruct (f now (w_tp w)).
Qed.

Lemma Keeps_call {X : Type} (e : Event X) :
  (forall o tick w, (handle o tick e w).1.2 = w) -> Keeps I (call e).
Proof.
  intros He. simpl. split; [| done]. intros o tick w Hw. by rewrite He.
Qed.


Lemma step_thread_Keeps (o : Oracle) (tick i : nat) (pool : list (Prog Outcome)) (w : World) :
  Forall (Keeps I) pool -> I w ->
  Forall (Keeps I) (step_thread o tick i pool w).1 /\ I (step_thread o tick i pool w).2.
Proof.
  intros Hpool Hw. unfold step_thread.
  destruct (pool !! i) as [[a | X e k] |] eqn:Hi; [done | | done].
  pose proof (Forall_lookup_1 _ _ _ _ Hpool Hi) as [He Hk].
  specialize (He o tick w Hw).
  destruct (handle o tick e w) as [[x w'] obs]. simpl in *.
  split; [| done]. apply Forall_insert; [done | apply Hk].
Qed.

Lemma run_schedule_Keeps (o : Oracle) (schedule : list nat) :
  forall (tick : nat) (pool : list (Prog Outcome)) (w : World),
    Forall (Keeps I) pool -> I w ->
    Forall (Keeps I) (run_schedule o schedule tick pool w).1 /\
    I (run_schedule o schedule tick pool w).2.
Proof.
  induction schedule as [| i schedule IH]; intros tick pool w Hpool Hw; [done |].
  simpl. destruct (@step_thread_Keeps o tick i pool w Hpool Hw) as [Hpool' Hw'].
  destruct (step_thread o tick i pool w) as [pool' w']. by apply IH.
Qed.
End KeepsRules.

Section WatcherKeeps.
Context `{Collaborators}.
Variable I : World -> Prop.
Variable m_options : Sv2TemplateProviderOptions.
Variable send : Sv2Client -> N -> BlockTemplate -> bool -> bool * Sv2Client.
Variable client_id : N.


Lemma Keeps_emit id_of t future :
  watcher_stable I send client_id -> Keeps I (emit send client_id id_of t future).
Proof.
  intros (I_template_id & I_tip & I_cache & I_emit).
  apply Keeps_atomic. intros now w Hw.
  destruct (GetClientById client_id w) as [client |] eqn:Hclient; simpl; [| done].
  by apply I_emit.
Qed.

Lemma Keeps_read {X : Type} (f : World -> X) :
  Keeps I (call (Atomic (fun _ w => (f w, w)))).
Proof. by apply Keeps_atomic. Qed.

Lemma Keeps_initial_template timer :
  watcher_stable I send client_id -> Keeps I (initial_template send client_id timer).
Proof.
  intros Hstable. pose proof Hstable as (I_template_id & I_tip & I_cache & I_emit).
  unfold initial_template.
  apply Keeps_bind.
  { apply Keeps_with_tp. intros now w Hw. simpl. by apply I_template_id. }
  intros template_id. apply Keeps_bind.
  { apply Keeps_atomic. intros now w Hw. simpl. done. }
  intros [weight |]; [| done].
  apply Keeps_bind; [by apply Keeps_call |]. intros block_template.
  apply Keeps_bind.
  { apply Keeps_with_tp. intros now w Hw. simpl.
    destruct (bool_decide _); [by apply I_tip |]. by rewrite set_tp_same. }
  intros _. apply Keeps_bind; [by apply Keeps_emit |].
  intros [|]; simpl; [| done].
  split; [done |]. intros now. split; [| done].
  intros o tick w Hw. simpl. by apply I_cache.
Qed.

Lemma Keeps_handle_next timer t old tmpl :
  watcher_stable I send client_id ->
  Keeps I (handle_next send client_id timer t old tmpl).
Proof.
  intros Hstable. pose proof Hstable as (I_template_id & I_tip & I_cache & I_emit).
  destruct tmpl as [tmpl |]; [| done]. unfold handle_next.
  apply Keeps_bind.
  { apply Keeps_with_tp. intros now w Hw.
    destruct (bool_decide _); simpl.
    - apply (I_template_id (set_tp (set_tip _ now (w_tp w)) w)). by apply I_tip.
    - by apply I_template_id. }
  intros future. apply Keeps_bind; [by apply Keeps_emit |].
  intros [|]; simpl; [| done].
  split; [done |]. intros now. split; [| done].
  intros o tick w Hw. simpl. by apply I_cache.
Qed.

Lemma Keeps_steady_state timer t :
  watcher_stable I send client_id ->
  Keeps I (steady_state m_options send client_id timer t).
Proof.
  intros Hstable.
  unfold steady_state. apply Keeps_bind.
  { unfold decide_check_fees. destruct (is_test m_options); [done |]. simpl. done. }
  intros ct. apply Keeps_bind; [by apply Keeps_call |]. intros tmpl.
  apply Keeps_bind; [apply Keeps_atomic; by intros |].
  intros [|]; simpl; [| done].
  apply Keeps_bind; [by apply Keeps_handle_next |].
  intros [| s]; [done |]. destruct (is_test m_options); simpl; done.
Qed.

Lemma Keeps_watcher_loop fuel :
  watcher_stable I send client_id ->
  forall timer block_template,
    Keeps I (watcher_loop m_options send client_id fuel timer block_template).
Proof.
  intros Hstable.
  induction fuel as [| fuel IH]; intros timer block_template; [done |].
  simpl. split; [done |]. intros [|]; [done |].
  apply Keeps_bind.
  { unfold loop_body. apply Keeps_bind.
    - destruct block_template; [done | by apply Keeps_initial_template].
    - intros [| s]; [done | by apply Keeps_steady_state]. }
  intros [| s]; [done | apply IH].
Qed.

Lemma Keeps_ThreadSv2ClientHandler_with fuel :
  watcher_stable I send client_id ->
  Keeps I (ThreadSv2ClientHandler_with m_options send client_id fuel).
Proof.
  intros Hstable.
  unfold ThreadSv2ClientHandler_with. simpl. split; [done |].
  intros now. by apply Keeps_watcher_loop.
Qed.
End WatcherKeeps.

Section SupervisorKeeps.
Variable I : World -> Prop.

Lemma Keeps_spawn_all ids : Keeps I (spawn_all ids).
Proof. induction ids as [| id ids IH]; [done |]. simpl. split; [done |]. by intros []. Qed.

Lemma Keeps_join_all ids : Keeps I (join_all ids).
Proof. induction ids as [| id ids IH]; [done |]. simpl. split; [done |]. by intros []. Qed.

Lemma Keeps_wait_for_ibd chain fuel : Keeps I (wait_for_ibd chain fuel).
Proof.
  induction fuel as [| fuel IH]; [done |]. simpl. split; [done |].
  intros stop. destruct (negb stop && _); [| done]. simpl. split; [done |].
  intros ibd. destruct (negb ibd); [done |]. simpl. split; [done |]. by intros [].
Qed.

Lemma Keeps_main_loop fuel :
  supervisor_stable I -> forall client_threads, Keeps I (main_loop fuel client_threads).
Proof.
  intros [_ I_prune]. induction fuel as [| fuel IH]; intros client_threads; [done |].
  simpl. split; [done |]. intros [|]; [done |]. simpl. split; [done |].
  intros acc. apply Keeps_bind; [apply Keeps_spawn_all |]. intros _.
  simpl. split; [done |]. intros _. split.
  - intros o tick w Hw. simpl. by apply I_prune.
  - intros _. apply IH.
Qed.

Lemma Keeps_ThreadSv2Handler chain fuel_ibd fuel_main :
  supervisor_stable I -> Keeps I (ThreadSv2Handler chain fuel_ibd fuel_main).
Proof.
  intros Hstable. pose proof Hstable as [I_time _].
  unfold ThreadSv2Handler. simpl. split; [done |].
  intros [tip |]; [| done]. simpl. split.
  { intros o tick w Hw. simpl. by apply I_time. }
  intros _. unfold wait_then_serve.
  apply Keeps_bind; [apply Keeps_wait_for_ibd |].
  intros [|]; [| done]. unfold serve_clients.
  apply Keeps_bind; [by apply Keeps_main_loop |].
  intros r. destruct r.1; [| done].
  apply Keeps_bind; [apply Keeps_join_all | done].
Qed.
End SupervisorKeeps.

(** ** Send queues *)

Lemma WellPaired_app (q q' : list Sv2NetMsg) :
  WellPaired q -> WellPaired q' -> WellPaired (q ++ q').
Proof.
  intros Hq Hq'. induction Hq; simpl; [done | | | |]; by constructor.
Qed.

Lemma WellPaired_SendWork (client : Sv2Client) (id : N) (t : BlockTemplate) (future : bool) :
  WellPaired (m_send_messages client) ->
  WellPaired (m_send_messages (SendWork client id t future).2).
Proof.
  intros Hq. unfold SendWork. destruct future; simpl.
  - rewrite <- app_assoc. apply WellPaired_app; [done |]. simpl. repeat constructor.
  - apply WellPaired_app; [done |]. repeat constructor.
Qed.

Lemma all_well_paired_watcher (client_id : N) :
  watcher_stable all_well_paired SendWork client_id.
Proof.
  repeat split; try done.
  intros w client id t future Hw Hclient other c Hother. simpl in Hother.
  apply lookup_insert_Some in Hother as [[_ <-] | [_ Hother]]; [| by eapply Hw].
  unfold send_or_disconnect.
  pose proof (@WellPaired_SendWork client id t future (Hw _ _ Hclient)) as Hq.
  by destruct (SendWork client id t future) as [[] c'].
Qed.

Lemma all_well_paired_supervisor : supervisor_stable all_well_paired.
Proof. by split. Qed.

Lemma all_well_paired_run_schedule `{Collaborators} (o : Oracle) (schedule : list nat)
    (tick : nat) (pool : list (Prog Outcome)) (w : World) :
  Forall (fun p => is_watcher p \/ is_supervisor p) pool ->
  all_well_paired w ->
  all_well_paired (run_schedule o schedule tick pool w).2.
Proof.
  intros Hpool Hw.
  apply (@run_schedule_Keeps all_well_paired o schedule tick pool w); [| done].
  eapply Forall_impl; [exact Hpool |]. simpl.
  intros p [(m_options & client_id & fuel & ->) | (chain & fuel_ibd & fuel_main & ->)].
  - apply Keeps_ThreadSv2ClientHandler_with, all_well_paired_watcher.
  - apply Keeps_ThreadSv2Handler, all_well_paired_supervisor.
Qed.

Lemma WellPaired_RequestTransactionData `{Collaborators} (o : Oracle) (tick : nat)
    (w : World) (client client' : Sv2Client) (msg : Sv2RequestTransactionDataMsg) :
  WellPaired (m_send_messages client) ->
  r_val (exec o (RequestTransactionData client msg) tick w) = Some client' ->
  WellPaired (m_send_messages client').
Proof.
  intros Hq Hrun.
  destruct (m_block_template_cache (w_tp w) !! m_template_id_req msg) as [t |] eqn:Hsome.
  - destruct (decide (hashPrevBlock (block_header (getBlock t)) = m_best_prev_hash (w_tp w)))
      as [Htip | Hstale].
    + rewrite (RequestTransactionData_run_fresh _ _ _ Hsome Htip) in Hrun. simpl in Hrun.
      unfold transaction_data in Hrun.
      destruct (vtx (getBlock t) !! 0%nat) as [coinbase |]; [| done]. simpl in Hrun.
      destruct (vin coinbase !! 0%nat) as [input |]; [| done]. simpl in Hrun.
      destruct (if negb (IsNull (scriptWitness input)) then _ else _); [| done].
      simpl in Hrun. injection Hrun as <-. simpl.
      apply WellPaired_app; [done | repeat constructor].
    + rewrite (RequestTransactionData_run_stale _ _ _ Hsome Hstale) in Hrun.
      injection Hrun as <-. simpl. apply WellPaired_app; [done | repeat constructor].
  - rewrite (RequestTransactionData_run_absent _ _ _ Hsome) in Hrun.
    injection Hrun as <-. simpl. apply WellPaired_app; [done | repeat constructor].
Qed.

(** X6: in every send queue, every [NewTemplate] with [future_template]
    set is directly followed by the [SetNewPrevHash] with its header and
    id, and no [SetNewPrevHash] stands anywhere else. This holds after any
    interleaving of watchers and the supervisor when it held before, and
    a request for transaction data keeps it. *)
Theorem send_queues_stay_paired `{Collaborators} :
  (forall (o : Oracle) (schedule : list nat) (tick : nat) (pool : list (Prog Outcome))
          (w : World),
     Forall (fun p => is_watcher p \/ is_supervisor p) pool ->
     all_well_paired w ->
     all_well_paired (run_schedule o schedule tick pool w).2) /\
  (forall (o : Oracle) (tick : nat) (w : World) (client client' : Sv2Client)
          (msg : Sv2RequestTransactionDataMsg),
     WellPaired (m_send_messages client) ->
     r_val (exec o (RequestTransactionData client msg) tick w) = Some client' ->
     WellPaired (m_send_messages client')).
Proof.
  split.
  - intros o schedule tick pool w. apply all_well_paired_run_schedule.
  - intros o tick w client client' msg. apply WellPaired_RequestTransactionData.
Qed.

Lemma send_queues_stay_paired_witness :
  all_well_paired (run_schedule ex_oracle ex_schedule 0 ex_pool ex_world).2.
Proof.
  refine (proj1 (@send_queues_stay_paired core_collaborators) ex_oracle ex_schedule 0%nat
            ex_pool ex_world _ _).
  - apply Forall_cons_2; [left; by eexists _, _, _ |].
    apply Forall_cons_2; [left; by eexists _, _, _ | apply Forall_nil_2].
  - intros id client Hin. unfold ex_world in Hin. simpl in Hin.
    apply lookup_insert_Some in Hin as [[_ <-] | [_ Hin]]; [constructor |].
    apply lookup_singleton_Some in Hin as [_ <-]. constructor.
Defined.

(** ** What watchers and the supervisor leave alone *)

Lemma frame_watcher `{Collaborators} (other : N) (entry : option Sv2Client)
    (send : Sv2Client -> N -> BlockTemplate -> bool -> bool * Sv2Client) (client_id : N) :
  client_id <> other ->
  watcher_stable (fun w => w_clients w !! other = entry) send client_id.
Proof.
  intros Hother. repeat split; try done.
  intros w client id t future Hw _. simpl. by rewrite lookup_insert_ne.
Qed.

(** X7: in any interleaving, watchers, whatever their emission routine,
    leave the registry entry of a client none of them watches as it
    was. *)
Theorem watchers_leave_other_clients `{Collaborators} (o : Oracle) (schedule : list nat)
    (tick : nat) (pool : list (Prog Outcome)) (w : World) (other : N) :
  Forall (is_watcher_beside other) pool ->
  w_clients (run_schedule o schedule tick pool w).2 !! other = w_clients w !! other.
Proof.
  intros Hpool.
  apply (@run_schedule_Keeps (fun w' => w_clients w' !! other = w_clients w !! other)
           o schedule tick pool w); [| done].
  eapply Forall_impl; [exact Hpool |]. simpl.
  intros p (m_options & send & client_id & fuel & Hother & ->).
  by apply Keeps_ThreadSv2ClientHandler_with, frame_watcher.
Qed.

Lemma watchers_leave_other_clients_witness :
  w_clients (run_schedule ex_oracle (replicate 16 0%nat) 0
               [ThreadSv2ClientHandler (H := core_collaborators) ex_options 1 2]
               ex_world).2 !! 2%N =
  w_clients ex_world !! 2%N.
Proof.
  refine (@watchers_leave_other_clients core_collaborators ex_oracle (replicate 16 0%nat)
            0%nat _ ex_world 2%N _).
  apply Forall_cons_2; [| apply Forall_nil_2].
  eexists _, _, 1%N, _. split; [discriminate | reflexivity].
Defined.

Lemma cache_insert_lookup (id id' : N) (t t' : BlockTemplate) (c : gmap N BlockTemplate) :
  c !! id' = Some t' -> cache_insert id t c !! id' = Some t'.
Proof.
  intros Hin. unfold cache_insert. destruct (c !! id) eqn:Hid; [done |].
  rewrite lookup_insert_ne; [done |]. intros ->. by rewrite Hid in Hin.
Qed.

Lemma cached_watcher `{Collaborators} (id : N) (t : BlockTemplate)
    (send : Sv2Client -> N -> BlockTemplate -> bool -> bool * Sv2Client) (client_id : N) :
  watcher_stable (fun w => m_block_template_cache (w_tp w) !! id = Some t) send client_id.
Proof.
  repeat split; try done.
  intros w id' t' Hw. simpl. by apply cache_insert_lookup.
Qed.

(** X8: in any interleaving of watchers, an id of the template cache keeps
    the template it was cached with: watchers never erase an entry and
    never overwrite one. *)
Theorem watchers_keep_cached_templates `{Collaborators} (o : Oracle)
    (schedule : list nat) (tick : nat) (pool : list (Prog Outcome)) (w : World)
    (id : N) (t : BlockTemplate) :
  Forall is_watcher_with pool ->
  m_block_template_cache (w_tp w) !! id = Some t ->
  m_block_template_cache (w_tp (run_schedule o schedule tick pool w).2) !! id = Some t.
Proof.
  intros Hpool Hin.
  apply (@run_schedule_Keeps (fun w' => m_block_template_cache (w_tp w') !! id = Some t)
           o schedule tick pool w); [| done].
  eapply Forall_impl; [exact Hpool |]. simpl.
  intros p (m_options & send & client_id & fuel & ->).
  apply Keeps_ThreadSv2ClientHandler_with, cached_watcher.
Qed.

Lemma watchers_keep_cached_templates_witness :
  m_block_template_cache
    (w_tp (run_schedule ex_oracle ex_schedule 0 ex_pool ex_world_after_tip).2) !! 1%N =
  Some (ex_template 7 0 []).
Proof.
  refine (@watchers_keep_cached_templates core_collaborators ex_oracle ex_schedule 0%nat
            ex_pool ex_world_after_tip 1%N (ex_template 7 0 []) _ _).
  - apply Forall_cons_2; [by eexists _, _, _, _ |].
    apply Forall_cons_2; [by eexists _, _, _, _ | apply Forall_nil_2].
  - by vm_compute.
Defined.




(** ** Starting and joining watchers *)

Lemma spawn_if_ready_fold (client_threads : gset N) (clients : list Sv2Client) :
  forall acc : gset N * list N,
    NoDup acc.2 ->
    (forall id, id ∈ acc.2 -> id ∉ client_threads) ->
    acc.1 = client_threads ∪ list_to_set acc.2 ->
    NoDup (foldl spawn_if_ready acc clients).2 /\
    (forall id, id ∈ (foldl spawn_if_ready acc clients).2 -> id ∉ client_threads) /\
    (foldl spawn_if_ready acc clients).1 =
      client_threads ∪ list_to_set (foldl spawn_if_ready acc clients).2.
Proof.
  induction clients as [| client clients IH]; intros [running new] Hnodup Hfresh Hset;
    [done |].
  simpl in *. apply IH; unfold spawn_if_ready; simpl;
    destruct (m_coinbase_output_constraints_recv client); simpl; try done;
    case_bool_decide as Hin; simpl; try done.
  - apply NoDup_app. split; [done |]. split; [| apply NoDup_singleton].
    intros id Hid Hid'. apply list_elem_of_singleton in Hid' as ->.
    apply Hin. rewrite Hset. set_solver.
  - intros id Hid. apply elem_of_app in Hid as [Hid | Hid]; [by apply Hfresh |].
    apply list_elem_of_singleton in Hid as ->. intros Hrunning.
    apply Hin. rewrite Hset. set_solver.
  - rewrite Hset. rewrite list_to_set_app_L. simpl. set_solver.
Qed.

Lemma spawn_if_ready_fold_ready (clients : list Sv2Client) :
  forall (acc : gset N * list N) (id : N),
    id ∈ (foldl spawn_if_ready acc clients).2 ->
    id ∈ acc.2 \/
    exists client, client ∈ clients /\ m_id client = id /\
                   m_coinbase_output_constraints_recv client = true.
Proof.
  induction clients as [| client clients IH]; intros acc id Hid; [by left |].
  simpl in Hid. apply IH in Hid as [Hid | (c & Hc & Hcid & Hready)].
  - unfold spawn_if_ready in Hid.
    destruct (m_coinbase_output_constraints_recv client) eqn:Hready; simpl in Hid;
      [| by left].
    case_bool_decide; simpl in Hid; [by left |].
    apply elem_of_app in Hid as [Hid | Hid]; [by left |].
    apply list_elem_of_singleton in Hid as ->. right. exists client.
    split; [apply list_elem_of_here | done].
  - right. exists c. split; [by apply list_elem_of_further | done].
Qed.

Lemma spawn_if_ready_fold_mono (clients : list Sv2Client) :
  forall (acc : gset N * list N) (id : N),
    id ∈ acc.1 -> id ∈ (foldl spawn_if_ready acc clients).1.
Proof.
  induction clients as [| client clients IH]; intros acc id Hid; [done |].
  simpl. apply IH. unfold spawn_if_ready.
  destruct (m_coinbase_output_constraints_recv client); simpl; [| done].
  case_bool_decide; simpl; [done |]. set_solver.
Qed.

Lemma spawn_if_ready_fold_all (clients : list Sv2Client) :
  forall (acc : gset N * list N) (client : Sv2Client),
    client ∈ clients ->
    m_coinbase_output_constraints_recv client = true ->
    m_id client ∈ (foldl spawn_if_ready acc clients).1.
Proof.
  induction clients as [| c clients IH]; intros acc client Hin Hready;
    [by apply elem_of_nil in Hin |].
  simpl. apply elem_of_cons in Hin as [<- | Hin]; [| by apply IH].
  apply spawn_if_ready_fold_mono. unfold spawn_if_ready. rewrite Hready. simpl.
  case_bool_decide; simpl; [done |]. set_solver.
Qed.

Lemma ForEachClient_spawn_round (client_threads : gset N) (w : World) :
  NoDup (ForEachClient spawn_if_ready (client_threads, []) w).2 /\
  (forall id, id ∈ (ForEachClient spawn_if_ready (client_threads, []) w).2 ->
     id ∉ client_threads) /\
  (ForEachClient spawn_if_ready (client_threads, []) w).1 =
    client_threads ∪ list_to_set (ForEachClient spawn_if_ready (client_threads, []) w).2.
Proof.
  unfold ForEachClient. apply spawn_if_ready_fold.
  - apply NoDup_nil_2.
  - intros id Hid. by apply elem_of_nil in Hid.
  - simpl. set_solver.
Qed.

(** X10: one pass over the clients starts a watcher for no id twice, and
    only for ids that had no watcher and belong to a registered client
    whose coinbase output constraints have arrived; afterwards
    [client_threads] holds the ids it held and those just started, among
    them the id of every such client. *)
Theorem ForEachClient_spawns_once (client_threads : gset N) (w : World) :
  NoDup (ForEachClient spawn_if_ready (client_threads, []) w).2 /\
  (forall id, id ∈ (ForEachClient spawn_if_ready (client_threads, []) w).2 ->
     (id ∉ client_threads) /\
     (exists key client,
        w_clients w !! key = Some client /\ m_id client = id /\
        m_coinbase_output_constraints_recv client = true)) /\
  (ForEachClient spawn_if_ready (client_threads, []) w).1 =
    client_threads ∪ list_to_set (ForEachClient spawn_if_ready (client_threads, []) w).2 /\
  (forall key client,
     w_clients w !! key = Some client ->
     m_coinbase_output_constraints_recv client = true ->
     m_id client ∈ (ForEachClient spawn_if_ready (client_threads, []) w).1).
Proof.
  destruct (ForEachClient_spawn_round client_threads w) as (Hnodup & Hfresh & Hset).
  split; [done |]. split; [| split; [done |]].
  - intros id Hid. split; [by apply Hfresh |].
    unfold ForEachClient in Hid.
    apply spawn_if_ready_fold_ready in Hid as [Hid | (c & Hc & Hcid & Hready)];
      [by apply elem_of_nil in Hid |].
    apply list_elem_of_fmap in Hc as ([key c'] & -> & Hc).
    apply elem_of_map_to_list in Hc. by exists key, c'.
  - intros key client Hin Hready. unfold ForEachClient.
    apply spawn_if_ready_fold_all; [| done].
    apply list_elem_of_fmap. exists (key, client). split; [done |].
    by apply elem_of_map_to_list.
Qed.

Lemma ForEachClient_spawns_once_witness :
  (ForEachClient spawn_if_ready (∅, []) ex_world).2 = [2%N; 1%N] /\
  m_id (ex_client 1) ∈ (ForEachClient spawn_if_ready (∅, []) ex_world).1.
Proof.
  split; [by vm_compute |].
  refine (proj2 (proj2 (proj2 (ForEachClient_spawns_once ∅ ex_world))) 1%N (ex_client 1) _ _).
  - by vm_compute.
  - reflexivity.
Defined.

Lemma spawned_app (tr tr' : list Obs) : spawned (tr ++ tr') = spawned tr ++ spawned tr'.
Proof. apply omap_app. Qed.

Lemma joined_app (tr tr' : list Obs) : joined (tr ++ tr') = joined tr ++ joined tr'.
Proof. apply omap_app. Qed.

Lemma exec_spawn_all (o : Oracle) (ids : list N) :
  forall tick w,
    r_world (exec o (spawn_all ids) tick w) = w /\
    spawned (r_trace (exec o (spawn_all ids) tick w)) = ids /\
    joined (r_trace (exec o (spawn_all ids) tick w)) = [].
Proof.
  induction ids as [| id ids IH]; intros tick w; [done |].
  simpl. destruct (IH (S tick) w) as (Hw & Hs & Hj).
  unfold prepend. simpl. by rewrite Hw, Hs, Hj.
Qed.

Lemma exec_join_all (o : Oracle) (ids : list N) :
  forall tick w,
    r_world (exec o (join_all ids) tick w) = w /\
    spawned (r_trace (exec o (join_all ids) tick w)) = [] /\
    joined (r_trace (exec o (join_all ids) tick w)) = ids.
Proof.
  induction ids as [| id ids IH]; intros tick w; [done |].
  simpl. destruct (IH (S tick) w) as (Hw & Hs & Hj).
  unfold prepend. simpl. by rewrite Hw, Hs, Hj.
Qed.

Lemma exec_wait_for_ibd_threads (chain : ChainType) (o : Oracle) (fuel : nat) :
  forall tick w,
    spawned (r_trace (exec o (wait_for_ibd chain fuel) tick w)) = [] /\
    joined (r_trace (exec o (wait_for_ibd chain fuel) tick w)) = [].
Proof.
  induction fuel as [| fuel IH]; intros tick w; [done |].
  simpl. destruct (negb (interrupt o tick) && _); simpl; [| done].
  destruct (negb (in_ibd o (S tick))); simpl; [done |].
  destruct (IH (S (S (S tick))) w) as [Hs Hj].
  unfold prepend. simpl. by rewrite Hs, Hj.
Qed.

Lemma exec_main_loop_threads (o : Oracle) (fuel : nat) :
  forall (client_threads : gset N) tick w,
    NoDup (spawned (r_trace (exec o (main_loop fuel client_threads) tick w))) /\
    (forall id, id ∈ spawned (r_trace (exec o (main_loop fuel client_threads) tick w)) ->
       id ∉ client_threads) /\
    (r_val (exec o (main_loop fuel client_threads) tick w)).2 =
      client_threads ∪
      list_to_set (spawned (r_trace (exec o (main_loop fuel client_threads) tick w))) /\
    joined (r_trace (exec o (main_loop fuel client_threads) tick w)) = [].
Proof.
  induction fuel as [| fuel IH]; intros client_threads tick w.
  { simpl. repeat split; [apply NoDup_nil_2 | | set_solver].
    intros id Hid. by apply elem_of_nil in Hid. }
  simpl. destruct (interrupt o tick); simpl.
  { repeat split; [apply NoDup_nil_2 | | set_solver].
    intros id Hid. by apply elem_of_nil in Hid. }
  destruct (ForEachClient_spawn_round client_threads w) as (Hnodup & Hnew & Hset).
  set (acc := ForEachClient spawn_if_ready (client_threads, []) w) in *.
  rewrite exec_bind.
  destruct (exec_spawn_all o acc.2 (S (S tick)) w) as (Hw & Hs & Hj).
  rewrite Hw. simpl.
  set (rest := exec o (main_loop fuel acc.1) _ _).
  destruct (IH acc.1 (S (S (r_tick (exec o (spawn_all acc.2) (S (S tick)) w))))
              (set_tp (PruneBlockTemplateCache
                         (clock o (S (r_tick (exec o (spawn_all acc.2) (S (S tick)) w))))
                         (w_tp w)) w))
    as (Hnodup' & Hnew' & Hset' & Hj').
  fold rest in Hnodup', Hnew', Hset', Hj'.
  unfold prepend. simpl. rewrite !spawned_app, !joined_app, Hs, Hj. simpl.
  rewrite Hj'. repeat split; try done.
  - apply NoDup_app. split; [done |]. split; [| done].
    intros id Hid Hid'. apply Hnew' in Hid'. apply Hid'. rewrite Hset. set_solver.
  - intros id Hid. apply elem_of_app in Hid as [Hid | Hid]; [by apply Hnew |].
    apply Hnew' in Hid. intros Hrunning. apply Hid. rewrite Hset. set_solver.
  - rewrite Hset'. rewrite Hset. rewrite list_to_set_app_L. set_solver.
Qed.

(** X11: a run of [ThreadSv2Handler] starts no watcher twice. When it
    returns it has joined exactly the watchers it started, each once, in
    ascending order of id; a run cut short has joined none. *)
Theorem ThreadSv2Handler_joins_what_it_spawned (chain : ChainType) (o : Oracle)
    (fuel_ibd fuel_main tick : nat) (w : World) :
  NoDup (spawned (r_trace (exec o (ThreadSv2Handler chain fuel_ibd fuel_main) tick w))) /\
  (r_val (exec o (ThreadSv2Handler chain fuel_ibd fuel_main) tick w) = Finished ->
   joined (r_trace (exec o (ThreadSv2Handler chain fuel_ibd fuel_main) tick w)) ≡ₚ
     spawned (r_trace (exec o (ThreadSv2Handler chain fuel_ibd fuel_main) tick w)) /\
   Sorted N.le
     (joined (r_trace (exec o (ThreadSv2Handler chain fuel_ibd fuel_main) tick w)))) /\
  (r_val (exec o (ThreadSv2Handler chain fuel_ibd fuel_main) tick w) = OutOfFuel ->
   joined (r_trace (exec o (ThreadSv2Handler chain fuel_ibd fuel_main) tick w)) = []).
Proof.
  unfold ThreadSv2Handler. simpl.
  destruct (tip_changed o tick uint256_ZERO) as [tip |]; simpl.
  2: { split; [apply NoDup_nil_2 |]. split; [| done]. intros _. split; [done | constructor]. }
  unfold wait_then_serve. rewrite exec_bind.
  set (w1 := set_tp _ w).
  destruct (exec_wait_for_ibd_threads chain o fuel_ibd (S (S tick)) w1) as [Hs Hj].
  set (ibd := exec o (wait_for_ibd chain fuel_ibd) (S (S tick)) w1) in *.
  unfold prepend. simpl. rewrite !spawned_app, !joined_app, Hs, Hj. simpl.
  destruct (r_val ibd); simpl.
  2: { split; [apply NoDup_nil_2 |]. split; [done |]. done. }
  unfold serve_clients. rewrite exec_bind.
  destruct (exec_main_loop_threads o fuel_main ∅ (r_tick ibd) (r_world ibd))
    as (Hnodup & _ & Hset & Hjm).
  set (main := exec o (main_loop fuel_main ∅) (r_tick ibd) (r_world ibd)) in *.
  unfold prepend. simpl. rewrite !spawned_app, !joined_app, Hjm. simpl.
  destruct (r_val main).1; simpl.
  - destruct (exec_join_all o (merge_sort N.le (elements (r_val main).2))
                (r_tick main) (r_world main)) as (_ & Hsj & Hjj).
    rewrite exec_bind. unfold prepend. simpl.
    rewrite !spawned_app, !joined_app, Hsj, Hjj. simpl. rewrite !app_nil_r.
    split; [done |]. split; [| done]. intros _. split.
    + rewrite merge_sort_Permutation, Hset.
      rewrite (left_id_L ∅ (∪)). by apply elements_list_to_set.
    + apply Sorted_merge_sort. apply _.
  - rewrite app_nil_r. split; [done |]. split; [done | done].
Qed.

Lemma ThreadSv2Handler_joins_what_it_spawned_witness :
  joined (r_trace (exec ex_oracle_stop (ThreadSv2Handler MAIN 5 5) 0 ex_world)) ≡ₚ
    spawned (r_trace (exec ex_oracle_stop (ThreadSv2Handler MAIN 5 5) 0 ex_world)) /\
  Sorted N.le
    (joined (r_trace (exec ex_oracle_stop (ThreadSv2Handler MAIN 5 5) 0 ex_world))).
Proof.
  refine (proj1 (proj2 (ThreadSv2Handler_joins_what_it_spawned MAIN ex_oracle_stop 5 5 0
                          ex_world)) _).
  by vm_compute.
Defined.

(** ** A watcher running alone *)







Section SoloRuns.
Context `{Collaborators}.
Variable m_options : Sv2TemplateProviderOptions.
Variable client_id : N.
Variable o : Oracle.



Lemma exec_steady_state_gone
    (send : Sv2Client -> N -> BlockTemplate -> bool -> bool * Sv2Client) timer t tick w :
  GetClientById client_id w = None ->
  exec o (steady_state m_options send client_id timer t) tick w =
  {| r_val := Break;
     r_world := w;
     r_tick := S (S (r_tick (exec o (decide_check_fees m_options timer) tick w)));
     r_trace :=
       [CallWaitNext t
          (wait_options m_options
             (r_val (exec o (decide_check_fees m_options timer) tick w)).1)] |}.
Proof.
  intros Hclient. unfold steady_state. rewrite exec_bind.
  rewrite exec_decide_check_fees.
  assert (Hgone : bool_decide (is_Some (GetClientById client_id w)) = false).
  { apply bool_decide_false. rewrite Hclient. by intros [? ?]. }
  destruct (is_test m_options); simpl; by rewrite Hgone.
Qed.



End SoloRuns.



(** X13: a watcher started with the interrupt flag set returns at once
    and changes nothing. One whose client is not registered returns after
    [++m_template_id] alone: the counter is one higher (modulo 2^64),
    nothing else has changed, and neither [createNewBlock] nor [waitNext]
    was called. One that holds a template and finds its client gone when
    [waitNext] returns leaves its loop without changing anything; of
    [createNewBlock], [waitNext] and the sleep it has called [waitNext],
    once. *)
Theorem watcher_ends_without_client `{Collaborators}
    (m_options : Sv2TemplateProviderOptions)
    (send : Sv2Client -> N -> BlockTemplate -> bool -> bool * Sv2Client)
    (client_id : N) (o : Oracle) (fuel tick : nat) (w : World) :
  (interrupt o (S tick) = true ->
   exec o (ThreadSv2ClientHandler_with m_options send client_id (S fuel)) tick w =
   {| r_val := Finished; r_world := w; r_tick := S (S tick); r_trace := [] |}) /\
  (interrupt o (S tick) = false ->
   GetClientById client_id w = None ->
   exec o (ThreadSv2ClientHandler_with m_options send client_id (S fuel)) tick w =
   {| r_val := Finished;
      r_world :=
        {| w_tp := {| m_best_prev_hash := m_best_prev_hash (w_tp w);
                      m_last_block_time := m_last_block_time (w_tp w);
                      m_template_id := ((m_template_id (w_tp w) + 1) mod 2 ^ 64)%N;
                      m_block_template_cache := m_block_template_cache (w_tp w) |};
           w_clients := w_clients w |};
      r_tick := S (S (S (S tick)));
      r_trace := [] |}) /\
  (forall (timer : Timer) (t : BlockTemplate),
     interrupt o tick = false ->
     GetClientById client_id w = None ->
     r_val (exec o (watcher_loop m_options send client_id (S fuel) timer (Some t)) tick w) =
       Finished /\
     r_world (exec o (watcher_loop m_options send client_id (S fuel) timer (Some t)) tick w) =
       w /\
     exists options : BlockWaitOptions,
       r_trace (exec o (watcher_loop m_options send client_id (S fuel) timer (Some t))
                  tick w) = [CallWaitNext t options]).
Proof.
  split; [| split].
  - intros Hstop. unfold ThreadSv2ClientHandler_with. simpl. by rewrite Hstop.
  - intros Hgo Hclient. unfold ThreadSv2ClientHandler_with.
    cbn [bind call exec handle watcher_loop]. rewrite Hgo, !prepend_nil.
    rewrite exec_bind. unfold loop_body. rewrite exec_bind.
    rewrite (exec_initial_template_gone send o _ (S (S tick)) Hclient). simpl. done.
  - intros timer t Hgo Hclient.
    cbn [bind call exec handle watcher_loop]. rewrite Hgo, !prepend_nil.
    rewrite exec_bind. unfold loop_body. cbn [bind].
    rewrite (exec_steady_state_gone m_options o send timer t (S tick) Hclient). simpl.
    split; [done |]. split; [done |]. by eexists.
Qed.

Lemma watcher_ends_without_client_witness :
  exec ex_oracle_shutdown
    (ThreadSv2ClientHandler_with (H := core_collaborators) ex_options SendWork 1 3)
    0 ex_world =
    {| r_val := Finished; r_world := ex_world; r_tick := 2; r_trace := [] |} /\
  exec ex_oracle
    (ThreadSv2ClientHandler_with (H := core_collaborators) ex_options SendWork 9 3)
    0 ex_world =
    {| r_val := Finished;
       r_world := {| w_tp := {| m_best_prev_hash := 0%N; m_last_block_time := 0;
                                m_template_id := 1%N; m_block_template_cache := ∅ |};
                     w_clients := w_clients ex_world |};
       r_tick := 4; r_trace := [] |} /\
  (r_val (exec ex_oracle
            (watcher_loop (H := core_collaborators) ex_options SendWork 1 3
               (Timer_new 30 1000) (Some (ex_template 7 0 [])))
            0 ex_world_client_gone) = Finished /\
   r_world (exec ex_oracle
              (watcher_loop (H := core_collaborators) ex_options SendWork 1 3
                 (Timer_new 30 1000) (Some (ex_template 7 0 [])))
              0 ex_world_client_gone) = ex_world_client_gone /\
   exists options : BlockWaitOptions,
     r_trace (exec ex_oracle
                (watcher_loop (H := core_collaborators) ex_options SendWork 1 3
                   (Timer_new 30 1000) (Some (ex_template 7 0 [])))
                0 ex_world_client_gone) = [CallWaitNext (ex_template 7 0 []) options]).
Proof.
  split; [| split].
  - refine (proj1 (@watcher_ends_without_client core_collaborators ex_options SendWork
                     1%N ex_oracle_shutdown 2%nat 0%nat ex_world) _).
    reflexivity.
  - refine (proj1 (proj2 (@watcher_ends_without_client core_collaborators ex_options
                            SendWork 9%N ex_oracle 2%nat 0%nat ex_world)) _ _).
    + reflexivity.
    + by vm_compute.
  - refine (proj2 (proj2 (@watcher_ends_without_client core_collaborators ex_options
                            SendWork 1%N ex_oracle 2%nat 0%nat ex_world_client_gone))
              (Timer_new 30 1000) (ex_template 7 0 []) _ _).
    + reflexivity.
    + by vm_compute.
Defined.

(** ** The calls of a watcher *)

Section WatcherCalls.
Context `{Collaborators}.
Variable m_options : Sv2TemplateProviderOptions.
Variable send : Sv2Client -> N -> BlockTemplate -> bool -> bool * Sv2Client.
Variable client_id : N.
Variable o : Oracle.

Lemma created_app (tr tr' : list Obs) : created (tr ++ tr') = created tr ++ created tr'.
Proof. apply omap_app. Qed.

Lemma steady_state_created timer t tick w :
  created (r_trace (exec o (steady_state m_options send client_id timer t) tick w)) = [].
Proof.
  destruct (steady_state_trace m_options send client_id o timer t tick w)
    as (rest & -> & [-> | ->]); reflexivity.
Qed.

Lemma watcher_loop_created fuel :
  forall timer t tick w,
    created (r_trace (exec o (watcher_loop m_options send client_id fuel timer (Some t))
                        tick w)) = [].
Proof.
  induction fuel as [| fuel IH]; intros timer t tick w; [done |].
  cbn [watcher_loop bind call exec handle]. rewrite prepend_nil.
  destruct (interrupt o tick); [done |].
  rewrite exec_bind. unfold loop_body. cbn [bind].
  unfold prepend. cbn [r_trace]. rewrite created_app, steady_state_created.
  destruct (r_val (exec o (steady_state _ _ _ _ _) _ _)) as [| s]; [done |].
  apply IH.
Qed.

Lemma watcher_loop_created_first fuel timer tick w :
  (length (created (r_trace (exec o (watcher_loop m_options send client_id fuel timer None)
                               tick w))) <= 1)%nat /\
  Forall (fun opts => use_mempool opts = true)
    (created (r_trace (exec o (watcher_loop m_options send client_id fuel timer None)
                         tick w))) /\
  (GetClientById client_id w = None ->
   created (r_trace (exec o (watcher_loop m_options send client_id fuel timer None)
                       tick w)) = []).
Proof.
  destruct fuel as [| fuel]; [by repeat split; simpl; try lia |].
  cbn [watcher_loop bind call exec handle]. rewrite prepend_nil.
  destruct (interrupt o tick); [by repeat split; simpl; try lia |].
  rewrite exec_bind. unfold loop_body. rewrite exec_bind.
  destruct (GetClientById client_id w) as [client |] eqn:Hclient.
  - rewrite (exec_initial_template send o timer (S tick) Hclient).
    cbv zeta. cbn [r_val r_world r_tick r_trace].
    unfold prepend. cbn [r_trace r_val]. rewrite !created_app.
    rewrite steady_state_created. cbn [created omap app].
    destruct (r_val (exec o (steady_state _ _ _ _ _) _ _)) as [| s].
    + repeat split; simpl; [lia | by repeat constructor | done].
    + cbn [snd fst]. rewrite watcher_loop_created.
      repeat split; simpl; [lia | by repeat constructor | done].
  - rewrite (exec_initial_template_gone send o timer (S tick) Hclient).
    by repeat split; simpl; try lia.
Qed.
End WatcherCalls.

(** X14: a watcher calls [createNewBlock] at most once in its life, for
    its initial template and with [use_mempool] set, and not at all when
    its client is not registered when it starts; every later template
    comes from [waitNext]. *)
Theorem watcher_creates_one_block `{Collaborators} (m_options : Sv2TemplateProviderOptions)
    (send : Sv2Client -> N -> BlockTemplate -> bool -> bool * Sv2Client)
    (client_id : N) (o : Oracle) (fuel tick : nat) (w : World) :
  (length (created (r_trace (exec o (ThreadSv2ClientHandler_with m_options send client_id fuel)
                               tick w))) <= 1)%nat /\
  Forall (fun opts => use_mempool opts = true)
    (created (r_trace (exec o (ThreadSv2ClientHandler_with m_options send client_id fuel)
                         tick w))) /\
  (GetClientById client_id w = None ->
   created (r_trace (exec o (ThreadSv2ClientHandler_with m_options send client_id fuel)
                       tick w)) = []).
Proof.
  unfold ThreadSv2ClientHandler_with. cbn [bind call exec handle]. rewrite prepend_nil.
  apply watcher_loop_created_first.
Qed.

Lemma watcher_creates_one_block_witness :
  created (r_trace (exec ex_oracle
                      (ThreadSv2ClientHandler_with (H := core_collaborators) ex_options
                         SendWork 9 3) 0 ex_world)) = [].
Proof.
  refine (proj2 (proj2 (@watcher_creates_one_block core_collaborators ex_options SendWork
                          9%N ex_oracle 3%nat 0%nat ex_world)) _).
  by vm_compute.
Defined.
